(** * Bulk-add client of the "jam" dashboard, and the job engine it talks to

    A shallow embedding of the TypeScript front end
    ([utils/jam-api.ts], [utils/bulk-operations.ts],
    [components/BulkAddModal.tsx], [components/CompanyTable*.tsx]) together
    with a model of the job executor that the front end polls.

    Conventions.
    - JavaScript numbers that hold counts or identifiers are integers [Z].
    - An optional field [f?: T] is an [option T]; [undefined] is [None].
    - An [async] function is run against a script of server replies: the
      list of replies the server gives to the requests the function issues,
      in order.  When the script is exhausted the function is left waiting
      on its last request ([Awaiting]).
    - Side effects (requests, timers, callback invocations) are recorded in
      a trace of events, oldest first.
    - Progress callbacks have type [(x) => void]; an invocation is recorded
      as an event and returns normally. *)

From Stdlib Require Import ZArith.
From stdpp Require Import gmap strings list.

Local Open Scope string_scope.
Local Open Scope list_scope.
Local Open Scope Z_scope.

(** ** JavaScript values *)

(** A [number] that holds an entity identifier: an integer, or the [NaN]
    that [Number(x)] yields on what is not numeric.  Structural equality on
    this type is the SameValueZero comparison of [Array.prototype.includes]
    ([NaN] is found in an array that holds it). *)
Inductive JsNumber :=
| JNum (z : Z)
| NaN.

#[export] Instance JsNumber_eq_dec : EqDecision JsNumber.
Proof. solve_decision. Defined.

(** [a === b] on numbers: [NaN] is not equal to itself. *)
Definition strict_eq (a b : JsNumber) : bool :=
  match a, b with
  | JNum x, JNum y => bool_decide (x = y)
  | _, _ => false
  end.

(** [arr.includes(x)]. *)
Definition includes (arr : list JsNumber) (x : JsNumber) : bool :=
  bool_decide (x ∈ arr).

(** ** utils/jam-api.ts *)

Module JamApi.

Record ICompany := {
  id : JsNumber;
  company_name : string;
  liked : bool
}.

(** The union type ['pending' | 'processing' | 'completed' | 'failed' |
    'cancelled']. *)
Inductive JobStatus :=
| pending
| processing
| completed
| failed
| cancelled.

#[export] Instance JobStatus_eq_dec : EqDecision JobStatus.
Proof. solve_decision. Defined.

(** A collection as the listing returns it.  The field [id] of the source
    is [collection_id] here, [id] being the field of a company. *)
Record ICollection := {
  collection_id : string;
  collection_name : string;
  companies : list ICompany;
  total : Z
}.

Record IJobResponse := {
  jr_job_id : string;
  jr_status : JobStatus;
  jr_estimated_total : option Z;
  jr_created_at : string
}.

Record IJobStatusResponse := {
  job_id : string;
  status : JobStatus;
  total_items : Z;
  processed_items : Z;
  added_items : Z;
  skipped_items : Z;
  failed_items : Z;
  progress_pct : Z;
  error_message : option string
}.

Inductive SelectionKind :=
| explicit
| all_matching.

#[export] Instance SelectionKind_eq_dec : EqDecision SelectionKind.
Proof. solve_decision. Defined.

Record SelectionData := {
  ids : option (list JsNumber);
  total_at_snapshot : option Z
}.

Record IBulkAddRequest := {
  source_collection_id : string;
  target_collection_id : string;
  selection_kind : SelectionKind;
  selection_data : SelectionData;
  client_idempotency_key : option string
}.

(** What a request to the backend comes back with: the response body, or
    the error that axios throws and the wrapper rethrows. *)
Inductive reply (A : Type) :=
| ROk (a : A)
| RError (message : string).
Arguments ROk {A} a.
Arguments RError {A} message.

End JamApi.

Import JamApi.

(** ** JavaScript helpers *)

(** Truthiness of a string: every string but the empty one. *)
Definition truthy_string (s : string) : bool :=
  match s with
  | EmptyString => false
  | String _ _ => true
  end.

(** [x || fallback] for [x : string | undefined]. *)
Definition or_else (x : option string) (fallback : string) : string :=
  match x with
  | Some s => if truthy_string s then s else fallback
  | None => fallback
  end.

(** How an [async] function stands after a script of replies. *)
Inductive outcome (A : Type) :=
| Returned (a : A)
| Threw (message : string)
| Awaiting.
Arguments Returned {A} a.
Arguments Threw {A} message.
Arguments Awaiting {A}.

(** ** utils/bulk-operations.ts *)

Module BulkOperations.

Record IBulkOperationProgress := {
  jobId : string;
  op_status : JobStatus;
  progressPercent : Z;
  totalItems : Z;
  processedItems : Z;
  addedItems : Z;
  skippedItems : Z;
  failedItems : Z;
  errorMessage : option string
}.

Inductive event :=
| EvCreateJob (request : IBulkAddRequest)
| EvSleep (ms : Z)
| EvGetStatus (job : string)
| EvOnProgress (s : IJobStatusResponse)
| EvProgressCallback (cb : nat) (p : IBulkOperationProgress)
| EvSetTimeout (handle : positive) (ms : Z)
| EvClearTimeout (handle : positive)
| EvCancelJob (job : string)
| EvConsoleError (message : string).

(** The loop condition [status === 'pending' || status === 'processing']. *)
Definition still_active (st : JobStatus) : bool :=
  match st with
  | pending | processing => true
  | _ => false
  end.

(** Lines 42-50: what follows the [do ... while] loop. *)
Definition after_loop (jobStatus : IJobStatusResponse)
  : outcome IJobStatusResponse :=
  if decide (status jobStatus = failed) then
    Threw (or_else (error_message jobStatus) "Job failed")
  else if decide (status jobStatus = cancelled) then
    Threw "Job was cancelled"
  else Returned jobStatus.

(** Lines 33-38: the events of one iteration that observes [jobStatus]. *)
Definition iteration (job : string) (onProgress : bool)
    (jobStatus : IJobStatusResponse) : list event :=
  [EvSleep 1000; EvGetStatus job]
  ++ (if onProgress then [EvOnProgress jobStatus] else []).

(** Lines 32-40: the [do ... while] loop.  Each iteration waits a second,
    queries the status and hands it to [onProgress] when there is one. *)
Fixpoint poll_loop (job : string) (onProgress : bool)
    (replies : list (reply IJobStatusResponse))
  : list event * outcome IJobStatusResponse :=
  match replies with
  | [] => ([EvSleep 1000; EvGetStatus job], Awaiting)
  | RError e :: _ => ([EvSleep 1000; EvGetStatus job], Threw e)
  | ROk jobStatus :: rest =>
      let body := iteration job onProgress jobStatus in
      if still_active (status jobStatus) then
        let '(tr, out) := poll_loop job onProgress rest in
        (body ++ tr, out)
      else (body, after_loop jobStatus)
  end.

(** [createBulkAddJobWithPolling(request, onProgress)], run against the
    reply to the creation request and the replies to the status queries. *)
Definition createBulkAddJobWithPolling (request : IBulkAddRequest)
    (onProgress : bool)
    (created : option (reply IJobResponse))
    (replies : list (reply IJobStatusResponse))
  : list event * outcome IJobStatusResponse :=
  match created with
  | None => ([EvCreateJob request], Awaiting)
  | Some (RError e) => ([EvCreateJob request], Threw e)
  | Some (ROk jobResponse) =>
      let '(tr, out) := poll_loop (jr_job_id jobResponse) onProgress replies in
      (EvCreateJob request :: tr, out)
  end.

(** A script prefix on which the loop keeps going: every reply is a
    status, and the status is [pending] or [processing]. *)
Definition all_active (replies : list (reply IJobStatusResponse)) : bool :=
  forallb (fun r => match r with
                    | ROk s => still_active (status s)
                    | RError _ => false
                    end) replies.

(** Number of status queries in a trace. *)
Definition is_query (e : event) : bool :=
  match e with EvGetStatus _ => true | _ => false end.

Definition queries (tr : list event) : nat :=
  length (filter (fun e => is_query e = true) tr).

(** *** class BulkOperationManager *)

(** Lines 66-73 of [startBulkAdd]: the request it posts. *)
Definition startBulkAdd_request (sourceCollectionId targetCollectionId : string)
    (selectedCompanyIds : list JsNumber) (selectAll : bool) : IBulkAddRequest :=
  {| source_collection_id := sourceCollectionId;
     target_collection_id := targetCollectionId;
     selection_kind := if selectAll then all_matching else explicit;
     selection_data :=
       if selectAll
       then {| ids := None; total_at_snapshot := Some 0 |}
       else {| ids := Some selectedCompanyIds; total_at_snapshot := None |};
     client_idempotency_key := None |}.

(** [startBulkAdd], run against the reply to the creation request. *)
Definition startBulkAdd (sourceCollectionId targetCollectionId : string)
    (selectedCompanyIds : list JsNumber) (selectAll : bool)
    (created : option (reply IJobResponse))
  : list event * outcome string :=
  let request :=
    startBulkAdd_request sourceCollectionId targetCollectionId
      selectedCompanyIds selectAll in
  ([EvCreateJob request],
   match created with
   | None => Awaiting
   | Some (RError e) => Threw e
   | Some (ROk response) => Returned (jr_job_id response)
   end).

(** The manager's two private fields, and the part of the browser they
    live in: the pending timeouts of [window] (each one is the arrow
    function of line 131, which calls [pollJob(jobId)]), the next timer
    handle, the status queries that have not settled yet, and the trace.
    Timer handles are positive integers, so the truthiness test of line 91
    on [number | null] is a test for non-null. *)
Record world := {
  pollInterval : option positive;
  onProgressCallback : option nat;
  timers : list (positive * string);
  next_handle : positive;
  inflight : list string;
  log : list event
}.

Definition initial_world : world :=
  {| pollInterval := None; onProgressCallback := None; timers := [];
     next_handle := 1%positive; inflight := []; log := [] |}.

Definition emit (e : event) (w : world) : world :=
  {| pollInterval := pollInterval w;
     onProgressCallback := onProgressCallback w;
     timers := timers w; next_handle := next_handle w;
     inflight := inflight w; log := log w ++ [e] |}.

Definition set_pollInterval (v : option positive) (w : world) : world :=
  {| pollInterval := v;
     onProgressCallback := onProgressCallback w;
     timers := timers w; next_handle := next_handle w;
     inflight := inflight w; log := log w |}.

Definition set_onProgressCallback (v : option nat) (w : world) : world :=
  {| pollInterval := pollInterval w;
     onProgressCallback := v;
     timers := timers w; next_handle := next_handle w;
     inflight := inflight w; log := log w |}.

Definition set_timers (v : list (positive * string)) (w : world) : world :=
  {| pollInterval := pollInterval w;
     onProgressCallback := onProgressCallback w;
     timers := v; next_handle := next_handle w;
     inflight := inflight w; log := log w |}.

Definition set_inflight (v : list string) (w : world) : world :=
  {| pollInterval := pollInterval w;
     onProgressCallback := onProgressCallback w;
     timers := timers w; next_handle := next_handle w;
     inflight := v; log := log w |}.

(** [window.setTimeout(() => this.pollJob(jobId), ms)]. *)
Definition setTimeout (job : string) (ms : Z) (w : world) : positive * world :=
  let h := next_handle w in
  (h,
   emit (EvSetTimeout h ms)
     {| pollInterval := pollInterval w;
        onProgressCallback := onProgressCallback w;
        timers := timers w ++ [(h, job)]; next_handle := Pos.succ h;
        inflight := inflight w; log := log w |}).

(** [window.clearTimeout(h)]. *)
Definition clearTimeout (h : positive) (w : world) : world :=
  emit (EvClearTimeout h)
    (set_timers (filter (fun t => t.1 <> h) (timers w)) w).

(** Lines 90-96. *)
Definition stopPolling (w : world) : world :=
  let w1 :=
    match pollInterval w with
    | Some h => set_pollInterval None (clearTimeout h w)
    | None => w
    end in
  set_onProgressCallback None w1.

(** Lines 112-122. *)
Definition to_progress (job : string) (st : IJobStatusResponse)
  : IBulkOperationProgress :=
  {| jobId := job;
     op_status := status st;
     progressPercent := progress_pct st;
     totalItems := total_items st;
     processedItems := processed_items st;
     addedItems := added_items st;
     skippedItems := skipped_items st;
     failedItems := failed_items st;
     errorMessage := error_message st |}.

(** [pollJob(jobId)] up to its [await]: the status query goes out. *)
Definition pollJob_call (job : string) (w : world) : world :=
  emit (EvGetStatus job) (set_inflight (inflight w ++ [job]) w).

(** [pollJob(jobId)] from its [await] on, when the query has settled. *)
Definition pollJob_resume (job : string) (r : reply IJobStatusResponse)
    (w : world) : world :=
  match r with
  | ROk st =>
      let progress := to_progress job st in
      let w1 :=
        match onProgressCallback w with
        | Some cb => emit (EvProgressCallback cb progress) w
        | None => w
        end in
      if still_active (status st) then
        let '(h, w2) := setTimeout job 1000 w1 in
        set_pollInterval (Some h) w2
      else w1
  | RError e =>
      stopPolling (emit (EvConsoleError "Error polling job status:") w)
  end.

(** Lines 82-85. *)
Definition startPolling (job : string) (onProgress : nat) (w : world) : world :=
  pollJob_call job (set_onProgressCallback (Some onProgress) w).

(** Lines 101-103. *)
Definition cancelJob (job : string) (w : world) : world :=
  emit (EvCancelJob job) w.

Fixpoint remove_first (job : string) (l : list string) : list string :=
  match l with
  | [] => []
  | x :: rest => if decide (x = job) then rest else x :: remove_first job rest
  end.

Definition timer_job (h : positive) (ts : list (positive * string))
  : option string :=
  snd <$> head (filter (fun t => t.1 = h) ts).

(** What can happen to a manager: a call of one of its public methods, a
    status query of [job] that settles, a timeout that elapses. *)
Inductive input :=
| InStartPolling (job : string) (onProgress : nat)
| InStopPolling
| InCancelJob (job : string)
| InReply (job : string) (r : reply IJobStatusResponse)
| InTimer (h : positive).

Definition handle (i : input) (w : world) : world :=
  match i with
  | InStartPolling job cb => startPolling job cb w
  | InStopPolling => stopPolling w
  | InCancelJob job => cancelJob job w
  | InReply job r =>
      if decide (job ∈ inflight w)
      then pollJob_resume job r (set_inflight (remove_first job (inflight w)) w)
      else w
  | InTimer h =>
      match timer_job h (timers w) with
      | Some job =>
          pollJob_call job
            (set_timers (filter (fun t => t.1 <> h) (timers w)) w)
      | None => w
      end
  end.

Definition run (inputs : list input) (w : world) : world :=
  foldl (fun w i => handle i w) w inputs.

Definition is_startPolling (i : input) : bool :=
  match i with InStartPolling _ _ => true | _ => false end.

(** The progress notifications in a trace. *)
Definition is_delivery (e : event) : bool :=
  match e with EvProgressCallback _ _ => true | _ => false end.

Definition deliveries (tr : list event) : list event :=
  filter (fun e => is_delivery e = true) tr.

(** A manager left alone with the server: every reply of the script
    settles the outstanding query, and the timeout that the reply arms, if
    any, elapses before the next reply. *)
Fixpoint drive (job : string) (replies : list (reply IJobStatusResponse))
    (w : world) : world :=
  match replies with
  | [] => w
  | r :: rest =>
      let w1 := handle (InReply job r) w in
      match timers w1 with
      | (h, _) :: _ => drive job rest (handle (InTimer h) w1)
      | [] => w1
      end
  end.

Definition poll_with_manager (job : string) (onProgress : nat)
    (replies : list (reply IJobStatusResponse)) : world :=
  drive job replies (startPolling job onProgress initial_world).

(** The manager between two rounds of a single polling chain: no timeout
    is pending and one query of [job] is outstanding. *)
Definition polling (job : string) (w : world) : Prop :=
  timers w = [] /\ inflight w = [job].

(** [performBulkAdd], lines 146-161, once the job is created. *)
Definition performBulkAdd_poll (job : string) (onProgress : option nat)
    (w : world) : world :=
  match onProgress with
  | Some cb => startPolling job cb w
  | None => w
  end.

(** The statuses that a polling loop gets to see in a script of replies:
    those up to the first terminal status, or up to the first query that
    fails. *)
Fixpoint observed (replies : list (reply IJobStatusResponse))
  : list IJobStatusResponse :=
  match replies with
  | [] => []
  | RError _ :: _ => []
  | ROk s :: rest =>
      s :: (if still_active (status s) then observed rest else [])
  end.

(** The invocations of [onProgress] in a trace. *)
Definition is_onProgress (e : event) : bool :=
  match e with EvOnProgress _ => true | _ => false end.

Definition notifications (tr : list event) : list event :=
  filter (fun e => is_onProgress e = true) tr.

(** A manager at rest: no timeout is pending and no query is outstanding. *)
Definition at_rest (w : world) : Prop :=
  timers w = [] /\ inflight w = [].

(** The pending timeouts have distinct handles, all of them handed out
    already. *)
Definition handles_fresh (w : world) : Prop :=
  NoDup (timers w).*1
  /\ Forall (fun t => (t.1 < next_handle w)%positive) (timers w).

End BulkOperations.

(** ** components/BulkAddModal.tsx *)

Module BulkAddModal.

Import BulkOperations.

Inductive SelectionMethod :=
| selected
| all.

#[export] Instance SelectionMethod_eq_dec : EqDecision SelectionMethod.
Proof. solve_decision. Defined.

(** The props that the handlers read; [onClose] and [onComplete] are
    recorded as effects when they are called. *)
Record props := {
  open : bool;
  sourceCollectionId : string;
  selectedCompanyIds : list JsNumber;
  totalCompaniesInCollection : Z
}.

(** The component state (the [useState] cells of lines 44-50, without the
    list of collections, which only the rendering reads). *)
Record state := {
  selectedTargetCollectionId : string;
  selectionMethod : SelectionMethod;
  isLoading : bool;
  error : option string;
  progress : Z;
  isProcessing : bool
}.

Definition initial_state : state :=
  {| selectedTargetCollectionId := EmptyString; selectionMethod := selected;
     isLoading := false; error := None; progress := 0;
     isProcessing := false |}.

Definition setSelectedTargetCollectionId (v : string) (st : state) : state :=
  {| selectedTargetCollectionId := v;
     selectionMethod := selectionMethod st; isLoading := isLoading st;
     error := error st; progress := progress st;
     isProcessing := isProcessing st |}.

Definition setSelectionMethod (v : SelectionMethod) (st : state) : state :=
  {| selectedTargetCollectionId := selectedTargetCollectionId st;
     selectionMethod := v; isLoading := isLoading st;
     error := error st; progress := progress st;
     isProcessing := isProcessing st |}.

Definition setError (v : option string) (st : state) : state :=
  {| selectedTargetCollectionId := selectedTargetCollectionId st;
     selectionMethod := selectionMethod st; isLoading := isLoading st;
     error := v; progress := progress st;
     isProcessing := isProcessing st |}.

Definition setProgress (v : Z) (st : state) : state :=
  {| selectedTargetCollectionId := selectedTargetCollectionId st;
     selectionMethod := selectionMethod st; isLoading := isLoading st;
     error := error st; progress := v;
     isProcessing := isProcessing st |}.

Definition setIsProcessing (v : bool) (st : state) : state :=
  {| selectedTargetCollectionId := selectedTargetCollectionId st;
     selectionMethod := selectionMethod st; isLoading := isLoading st;
     error := error st; progress := progress st;
     isProcessing := v |}.

(** What a handler does outside the component state. *)
Inductive effect :=
| Confirm (total : Z)
| Api (e : event)
| OnComplete
| OnClose.

(** Lines 132-140.  A handler is a closure over the state of the render
    that created it: [render] is that state, which [isProcessing] is read
    from, and [cur] is the state that the setters update. *)
Definition handleClose (render cur : state) : state * list effect :=
  if isProcessing render then (cur, [])
  else
    (setProgress 0
       (setError None
          (setSelectionMethod selected
             (setSelectedTargetCollectionId EmptyString cur))),
     [OnClose]).

(** Lines 106-114. *)
Definition build_request (p : props) (st : state) : IBulkAddRequest :=
  {| source_collection_id := sourceCollectionId p;
     target_collection_id := selectedTargetCollectionId st;
     selection_kind :=
       if decide (selectionMethod st = all) then all_matching else explicit;
     selection_data :=
       {| ids :=
            if decide (selectionMethod st = all) then None
            else Some (selectedCompanyIds p);
          total_at_snapshot :=
            if decide (selectionMethod st = all)
            then Some (totalCompaniesInCollection p) else None |};
     client_idempotency_key := None |}.

(** Lines 79-100: the checks that come before anything is sent.
    [confirmed] is what [confirm(...)] answers when it is asked. *)
Inductive gate :=
| Reject (message : string)
| Decline
| Proceed.

(** The double quote character, and the message of line 91. *)
Definition dquote : string :=
  String (Ascii.Ascii false true false false false true false false)
    EmptyString.

Definition no_companies_message : string :=
  "No companies selected. Please select companies or choose "
  +:+ dquote +:+ "Add All" +:+ dquote.

Definition validate (p : props) (st : state) (confirmed : bool) : gate :=
  if negb (truthy_string (selectedTargetCollectionId st)) then
    Reject "Please select a target collection"
  else if decide (sourceCollectionId p = selectedTargetCollectionId st) then
    Reject "Source and target collections cannot be the same"
  else if bool_decide (selectionMethod st = selected)
            && bool_decide (length (selectedCompanyIds p) = 0%nat) then
    Reject no_companies_message
  else if bool_decide (selectionMethod st = all) && negb confirmed then Decline
  else Proceed.

(** The progress callback of lines 117-119, applied to the notifications
    of a trace in order. *)
Definition apply_progress (tr : list event) (st : state) : state :=
  foldl (fun st e =>
           match e with
           | EvOnProgress s => setProgress (progress_pct s) st
           | _ => st
           end) st tr.

(** [handleSubmit], lines 79-130, run against the answer of the
    confirmation dialog and the replies of the server. *)
Definition handleSubmit (p : props) (st : state) (confirmed : bool)
    (created : option (reply IJobResponse))
    (replies : list (reply IJobStatusResponse))
  : state * list effect :=
  let asked :=
    if truthy_string (selectedTargetCollectionId st)
       && negb (bool_decide (sourceCollectionId p = selectedTargetCollectionId st))
       && bool_decide (selectionMethod st = all)
    then [Confirm (totalCompaniesInCollection p)] else [] in
  match validate p st confirmed with
  | Reject message => (setError (Some message) st, [])
  | Decline => (st, asked)
  | Proceed =>
      let st1 := setProgress 0 (setError None (setIsProcessing true st)) in
      let request := build_request p st in
      let '(tr, out) :=
        createBulkAddJobWithPolling request true created replies in
      let st2 := apply_progress tr st1 in
      let api := asked ++ map Api tr in
      match out with
      | Awaiting => (st2, api)
      | Returned _ =>
          let '(st3, closing) := handleClose st st2 in
          (setProgress 0 (setIsProcessing false st3),
           api ++ [OnComplete] ++ closing)
      | Threw message =>
          (setProgress 0 (setIsProcessing false (setError (Some message) st2)),
           api)
      end
  end.

(** The [disabled] attribute of the submit button, lines 227-231. *)
Definition submit_disabled (p : props) (st : state) : bool :=
  isProcessing st
  || negb (truthy_string (selectedTargetCollectionId st))
  || (bool_decide (selectionMethod st = selected)
      && bool_decide (length (selectedCompanyIds p) = 0%nat)).

(** A click on the submit button. *)
Definition click_submit (p : props) (st : state) (confirmed : bool)
    (created : option (reply IJobResponse))
    (replies : list (reply IJobStatusResponse))
  : state * list effect :=
  if submit_disabled p st then (st, [])
  else handleSubmit p st confirmed created replies.

(** The conditions under which a submission may go out. *)
Definition submittable (p : props) (st : state) : Prop :=
  selectedTargetCollectionId st <> EmptyString
  /\ sourceCollectionId p <> selectedTargetCollectionId st
  /\ (selectionMethod st = selected -> selectedCompanyIds p <> []).

(** Lines 71-77. *)
Definition handleTargetCollectionChange (value : string) (st : state) : state :=
  setSelectedTargetCollectionId value st.

Definition handleSelectionMethodChange (value : SelectionMethod) (st : state)
  : state :=
  setSelectionMethod value st.

Definition setIsLoading (v : bool) (st : state) : state :=
  {| selectedTargetCollectionId := selectedTargetCollectionId st;
     selectionMethod := selectionMethod st; isLoading := v;
     error := error st; progress := progress st;
     isProcessing := isProcessing st |}.

(** [loadCollections], lines 59-69, when the listing has settled: the
    list of collections and the state after it. *)
Definition loadCollections (r : reply (list ICollection))
    (collections : list ICollection) (st : state)
  : list ICollection * state :=
  match r with
  | ROk collectionsData =>
      (collectionsData, setIsLoading false (setIsLoading true st))
  | RError _ =>
      (collections,
       setIsLoading false
         (setError (Some "Failed to load collections") (setIsLoading true st)))
  end.

(** Line 142. *)
Definition sourceCollectionName (collections : list ICollection) (p : props)
  : string :=
  or_else
    (collection_name
       <$> List.find (fun c => bool_decide (collection_id c = sourceCollectionId p))
             collections)
    EmptyString.

(** Line 143: the collections offered as targets. *)
Definition availableTargetCollections (collections : list ICollection)
    (p : props) : list ICollection :=
  filter (fun c => collection_id c <> sourceCollectionId p) collections.

End BulkAddModal.

(** ** The requests of the client *)

(** The two places of the client that build a submit request: the dialog,
    whose [totalCompaniesInCollection] prop is the total that its caller
    observed in the source collection, and the manager's [startBulkAdd],
    which is not told any total. *)
Inductive client_builds (observed_total : Z) : IBulkAddRequest -> Prop :=
| built_by_dialog p st confirmed :
    BulkAddModal.totalCompaniesInCollection p = observed_total ->
    BulkAddModal.validate p st confirmed = BulkAddModal.Proceed ->
    client_builds observed_total (BulkAddModal.build_request p st)
| built_by_manager sourceCollectionId targetCollectionId
    selectedCompanyIds selectAll :
    client_builds observed_total
      (BulkOperations.startBulkAdd_request sourceCollectionId
         targetCollectionId selectedCompanyIds selectAll).

(** ** components/CompanyTable.tsx and the other versions of its handler *)

Module CompanyTable.

(** A [GridRowId] of the data grid: [string | number]. *)
Inductive GridRowId :=
| RowNumber (n : JsNumber)
| RowString (s : string).

(** The state cells that the selection handler reads and writes. *)
Record state := {
  response : list ICompany;
  selectedCompanyIds : list JsNumber;
  dataGridKey : Z
}.

Definition setSelectedCompanyIds (v : list JsNumber) (st : state) : state :=
  {| response := response st; selectedCompanyIds := v;
     dataGridKey := dataGridKey st |}.

Definition bumpDataGridKey (st : state) : state :=
  {| response := response st; selectedCompanyIds := selectedCompanyIds st;
     dataGridKey := dataGridKey st + 1 |}.

(** [clearAllSelections] of CompanyTable.tsx. *)
Definition clearAllSelections (st : state) : state :=
  bumpDataGridKey (setSelectedCompanyIds [] st).

Section Handlers.

(** The conversion of a string to a number that [Number(s)] performs
    (the StringToNumber operation of the language). *)
Variable StringToNumber : string -> JsNumber.

Definition Number (x : GridRowId) : JsNumber :=
  match x with
  | RowNumber n => n
  | RowString s => StringToNumber s
  end.

Definition currentPageIds (st : state) : list JsNumber :=
  map id (response st).

Definition otherPagesSelection (st : state) : list JsNumber :=
  filter (fun x => includes (currentPageIds st) x = false)
    (selectedCompanyIds st).

(** CompanyTable.tsx, lines 42-52. *)
Definition handleSelectionChange (newSelection : list GridRowId)
    (st : state) : state :=
  let newSelectionNumbers := map Number newSelection in
  let updatedSelection := otherPagesSelection st ++ newSelectionNumbers in
  bumpDataGridKey (setSelectedCompanyIds updatedSelection st).

(** The version that keeps only the new ids of the current page
    (CompanyTableSimple.tsx, and lines 41-47 of the first component of
    unnamed/part_000). *)
Definition handleSelectionChange_simple (newSelection : list GridRowId)
    (st : state) : state :=
  let newSelectionNumbers :=
    filter (fun x => includes (currentPageIds st) x = true)
      (map Number newSelection) in
  let updatedSelection := otherPagesSelection st ++ newSelectionNumbers in
  setSelectedCompanyIds updatedSelection st.

(** The version that first looks for a grid that is out of step with
    the selection (the second component of unnamed/part_000, lines
    156-183). *)
Definition handleSelectionChange_sync (newSelection : list GridRowId)
    (st : state) : state :=
  let currentlySelectedOnPage :=
    filter (fun x => includes (currentPageIds st) x = true)
      (selectedCompanyIds st) in
  let newSelectionNumbers :=
    filter (fun x => includes (currentPageIds st) x = true)
      (map Number newSelection) in
  if bool_decide (length newSelectionNumbers = length currentlySelectedOnPage)
     && bool_decide (length newSelectionNumbers = length (currentPageIds st))
     && bool_decide (0 < length currentlySelectedOnPage)%nat
  then bumpDataGridKey st
  else
    let updatedSelection := otherPagesSelection st ++ newSelectionNumbers in
    setSelectedCompanyIds updatedSelection st.

(** The selection shown on the current page, before [String(id)]. *)
Definition currentPageSelections (st : state) : list JsNumber :=
  filter (fun x => existsb (fun c => strict_eq (id c) x) (response st) = true)
    (selectedCompanyIds st).

End Handlers.

(** *** CompanyTableOld.tsx: a selection column of its own *)







(** The [disabled] attribute of the bulk-add button, in every version. *)
Definition bulkAddDisabled (st : state) : bool :=
  bool_decide (length (selectedCompanyIds st) = 0%nat).

(** Decimal digit strings read as numbers; any other string is taken to
    [NaN].  This agrees with StringToNumber on the strings that
    [String(id)] produces for a non-negative integer [id]. *)
Definition digit_value (c : Ascii.ascii) : option Z :=
  let n := Z.of_nat (Ascii.nat_of_ascii c) in
  if bool_decide (48 <= n <= 57) then Some (n - 48) else None.

Fixpoint digits_value (acc : Z) (s : string) : option Z :=
  match s with
  | EmptyString => Some acc
  | String c rest =>
      match digit_value c with
      | Some d => digits_value (10 * acc + d) rest
      | None => None
      end
  end.

Definition decimal_StringToNumber (s : string) : JsNumber :=
  match digits_value 0 s with Some z => JNum z | None => NaN end.

End CompanyTable.

(** ** The job engine behind the API *)

Module JobEngine.

(** Modelled from the spec: the Bulk Membership Job Engine (job record,
    selection resolver, membership store adapter and job executor of
    sections 3 and 4), which is backend code that the front-end sources
    do not contain.  The definitions follow the wording of the spec; where
    it leaves a value open (the counters of a job that was just created)
    the zero value is taken. *)

Inductive SelectionSpec :=
| Explicit (ids : list Z)
| AllMatching (total_at_snapshot : Z).

Record Job := {
  source : string;
  target : string;
  selection : SelectionSpec;
  status : JobStatus;
  total_items : Z;
  processed_items : Z;
  added_items : Z;
  skipped_items : Z;
  failed_items : Z;
  error_message : option string;
  cancel_requested : bool
}.

(** Modelled from the spec: a job is created in [pending]. *)
Definition create (src tgt : string) (sel : SelectionSpec) : Job :=
  {| source := src; target := tgt; selection := sel;
     status := pending;
     total_items := 0; processed_items := 0; added_items := 0;
     skipped_items := 0; failed_items := 0;
     error_message := None; cancel_requested := false |}.

(** Modelled from the spec: duplicates are dropped, the order of first
    occurrence is kept. *)
Fixpoint dedup_from (seen : gset Z) (l : list Z) : list Z :=
  match l with
  | [] => []
  | x :: rest =>
      if decide (x ∈ seen) then dedup_from seen rest
      else x :: dedup_from ({[x]} ∪ seen) rest
  end.

Definition dedup (l : list Z) : list Z := dedup_from ∅ l.

(** Modelled from the spec: the Selection Resolver of section 4.1.
    [None] is the SourceNotFound condition. *)
Definition resolve (m : gmap string (gset Z)) (src : string)
    (sel : SelectionSpec) : option (list Z) :=
  match m !! src with
  | None => None
  | Some members =>
      Some (match sel with
            | Explicit ids => dedup ids
            | AllMatching _ => elements members
            end)
  end.

(** Modelled from the spec: the adapter operations of section 4.2. *)
Definition Exists (m : gmap string (gset Z)) (c : string) : bool :=
  bool_decide (is_Some (m !! c)).

Definition Contains (m : gmap string (gset Z)) (c : string) (x : Z) : bool :=
  match m !! c with
  | Some members => bool_decide (x ∈ members)
  | None => false
  end.

Definition Add (m : gmap string (gset Z)) (c : string) (x : Z)
  : gmap string (gset Z) :=
  match m !! c with
  | Some members => <[c := {[x]} ∪ members]> m
  | None => m
  end.

Definition set_status (s : JobStatus) (j : Job) : Job :=
  {| source := source j; target := target j; selection := selection j;
     status := s;
     total_items := total_items j; processed_items := processed_items j;
     added_items := added_items j; skipped_items := skipped_items j;
     failed_items := failed_items j;
     error_message := error_message j;
     cancel_requested := cancel_requested j |}.

Definition set_total (n : Z) (j : Job) : Job :=
  {| source := source j; target := target j; selection := selection j;
     status := status j;
     total_items := n; processed_items := processed_items j;
     added_items := added_items j; skipped_items := skipped_items j;
     failed_items := failed_items j;
     error_message := error_message j;
     cancel_requested := cancel_requested j |}.

Definition set_error (e : option string) (j : Job) : Job :=
  {| source := source j; target := target j; selection := selection j;
     status := status j;
     total_items := total_items j; processed_items := processed_items j;
     added_items := added_items j; skipped_items := skipped_items j;
     failed_items := failed_items j;
     error_message := e;
     cancel_requested := cancel_requested j |}.

Definition set_cancel_requested (b : bool) (j : Job) : Job :=
  {| source := source j; target := target j; selection := selection j;
     status := status j;
     total_items := total_items j; processed_items := processed_items j;
     added_items := added_items j; skipped_items := skipped_items j;
     failed_items := failed_items j;
     error_message := error_message j;
     cancel_requested := b |}.

(** The outcome of one item, and the single update of the counters that
    records it together with [processed_items]. *)
Inductive item_outcome :=
| Added
| Skipped
| Failed (detail : string).

Definition UpdateCounters (o : item_outcome) (j : Job) : Job :=
  {| source := source j; target := target j; selection := selection j;
     status := status j;
     total_items := total_items j;
     processed_items := processed_items j + 1;
     added_items :=
       added_items j + match o with Added => 1 | _ => 0 end;
     skipped_items :=
       skipped_items j + match o with Skipped => 1 | _ => 0 end;
     failed_items :=
       failed_items j + match o with Failed _ => 1 | _ => 0 end;
     error_message :=
       match o with Failed d => Some d | _ => error_message j end;
     cancel_requested := cancel_requested j |}.

(** [progress_pct = round(100 * processed_items / max(total_items, 1))],
    rounding half up. *)
Definition progress_pct (j : Job) : Z :=
  (200 * processed_items j + Z.max (total_items j) 1)
  / (2 * Z.max (total_items j) 1).

Definition terminal (s : JobStatus) : bool :=
  match s with
  | completed | failed | cancelled => true
  | _ => false
  end.

(** An executor at work on one job: the job record, the identifiers that
    are still to be attempted ([None] until the selection is resolved) and
    the membership store. *)
Record exec := {
  job : Job;
  todo : option (list Z);
  members : gmap string (gset Z)
}.

Definition submit (m : gmap string (gset Z)) (src tgt : string)
    (sel : SelectionSpec) : exec :=
  {| job := create src tgt sel; todo := None; members := m |}.

(** What moves an executor on: the worker claims the job, validates the
    request and resolves the selection, or takes the next item (for which
    the store either accepts an [Add] or fails it with a detail); a caller
    requests cancellation; someone else changes the store; the resolver
    or the store fails fatally. *)
Inductive action :=
| Claim
| ValidateAndResolve
| NextItem (add_failure : option string)
| RequestCancel
| StoreChanges (m : gmap string (gset Z))
| FatalError (message : string).

Definition with_job (j : Job) (e : exec) : exec :=
  {| job := j; todo := todo e; members := members e |}.

Definition fail_with (message : string) (e : exec) : exec :=
  with_job (set_error (Some message) (set_status failed (job e))) e.

(** Modelled from the spec: the state machine and the algorithm of
    section 4.4, one atomic step at a time.  [None] means that the action
    is not possible in this state. *)
Definition exec_step (a : action) (e : exec) : option exec :=
  match a with
  | Claim =>
      if decide (status (job e) = pending)
      then Some (with_job (set_status processing (job e)) e)
      else None
  | ValidateAndResolve =>
      if decide (status (job e) = processing) then
        match todo e with
        | Some _ => None
        | None =>
            if negb (Exists (members e) (source (job e))) then
              Some (fail_with "source collection not found" e)
            else if negb (Exists (members e) (target (job e))) then
              Some (fail_with "target collection not found" e)
            else if decide (source (job e) = target (job e)) then
              Some (fail_with "source and target collections are the same" e)
            else
              match resolve (members e) (source (job e)) (selection (job e)) with
              | None => Some (fail_with "source collection not found" e)
              | Some l =>
                  Some {| job := set_total (Z.of_nat (length l)) (job e);
                          todo := Some l; members := members e |}
              end
        end
      else None
  | NextItem add_failure =>
      if decide (status (job e) = processing) then
        match todo e with
        | None => None
        | Some [] => Some (with_job (set_status completed (job e)) e)
        | Some (x :: rest) =>
            if cancel_requested (job e) then
              Some (with_job (set_status cancelled (job e)) e)
            else if Contains (members e) (target (job e)) x then
              Some {| job := UpdateCounters Skipped (job e);
                      todo := Some rest; members := members e |}
            else
              match add_failure with
              | None =>
                  Some {| job := UpdateCounters Added (job e);
                          todo := Some rest;
                          members := Add (members e) (target (job e)) x |}
              | Some detail =>
                  Some {| job := UpdateCounters (Failed detail) (job e);
                          todo := Some rest; members := members e |}
              end
        end
      else None
  | RequestCancel =>
      if terminal (status (job e)) then None
      else Some (with_job (set_cancel_requested true (job e)) e)
  | StoreChanges m =>
      Some {| job := job e; todo := todo e; members := m |}
  | FatalError message =>
      if terminal (status (job e)) then None
      else Some (fail_with message e)
  end.

(** The states that a job goes through under a sequence of actions: the
    state after each action, oldest first.  An action that is not
    possible leaves the state as it is. *)
Fixpoint observe (actions : list action) (e : exec) : list exec :=
  match actions with
  | [] => []
  | a :: rest =>
      let e' := default e (exec_step a e) in
      e' :: observe rest e'
  end.

(** The invariant of the counters. *)
Definition counters_consistent (j : Job) : Prop :=
  processed_items j = added_items j + skipped_items j + failed_items j
  /\ processed_items j <= total_items j.

(** What the executor maintains to keep it: the items that are processed
    and those that are still to do add up to the total. *)
Definition accounted (e : exec) : Prop :=
  processed_items (job e)
  = added_items (job e) + skipped_items (job e) + failed_items (job e)
  /\ match todo e with
     | None => processed_items (job e) = 0 /\ total_items (job e) = 0
     | Some l =>
         processed_items (job e) + Z.of_nat (length l) = total_items (job e)
     end.

End JobEngine.

(** ** Sample values *)

Module Samples.

Definition a_request : IBulkAddRequest :=
  {| source_collection_id := "c1";
     target_collection_id := "c2";
     selection_kind := explicit;
     selection_data :=
       {| ids := Some [JNum 5; JNum 7]; total_at_snapshot := None |};
     client_idempotency_key := None |}.

Definition a_job : IJobResponse :=
  {| jr_job_id := "job-1"; jr_status := pending;
     jr_estimated_total := Some 2; jr_created_at := "2024-01-01T00:00:00" |}.

(** A status response of a job of two items, [n] of which are processed
    and added. *)
Definition a_status (st : JobStatus) (n : Z) (err : option string)
  : IJobStatusResponse :=
  {| job_id := "job-1"; status := st;
     total_items := 2; processed_items := n; added_items := n;
     skipped_items := 0; failed_items := 0;
     progress_pct := 50 * n; error_message := err |}.

Definition a_collection (cid name : string) (n : Z) : ICollection :=
  {| collection_id := cid; collection_name := name;
     companies := []; total := n |}.

Definition some_props : BulkAddModal.props :=
  {| BulkAddModal.open := true;
     BulkAddModal.sourceCollectionId := "c1";
     BulkAddModal.selectedCompanyIds := [JNum 5; JNum 7];
     BulkAddModal.totalCompaniesInCollection := 40 |}.

(** The dialog with a target chosen and a selection method. *)
Definition dialog_state (tgt : string) (m : BulkAddModal.SelectionMethod)
    (busy : bool) : BulkAddModal.state :=
  {| BulkAddModal.selectedTargetCollectionId := tgt;
     BulkAddModal.selectionMethod := m;
     BulkAddModal.isLoading := false;
     BulkAddModal.error := None;
     BulkAddModal.progress := 0;
     BulkAddModal.isProcessing := busy |}.

Definition company (n : Z) (name : string) : ICompany :=
  {| id := JNum n; company_name := name; liked := false |}.

(** The second page of a table is shown; one company of the first page
    and one of the second are selected. *)
Definition table_state : CompanyTable.state :=
  {| CompanyTable.response := [company 26 "Acme"; company 27 "Bolt"];
     CompanyTable.selectedCompanyIds := [JNum 3; JNum 26];
     CompanyTable.dataGridKey := 0 |}.

(** The store of the example of section 8 of the spec: the target already
    holds 5. *)
Definition a_store : gmap string (gset Z) :=
  {[ "c1" := {[ 5; 7 ]}; "c2" := {[ 5 ]} ]}.

(** A manager whose first query was answered [pending] and whose second
    query is outstanding. *)
Definition polling_world : BulkOperations.world :=
  BulkOperations.run
    [BulkOperations.InStartPolling "job-1" 7;
     BulkOperations.InReply "job-1" (ROk (a_status pending 0 None));
     BulkOperations.InTimer 1]
    BulkOperations.initial_world.

End Samples.

(** * Properties *)

(** ** The polling helper *)

Section PollingHelper.

Import BulkOperations.

Lemma queries_app (a b : list event) :
  queries (a ++ b) = (queries a + queries b)%nat.
Proof. unfold queries. by rewrite filter_app, length_app. Qed.

Lemma queries_iteration (job : string) (onProgress : bool)
    (s : IJobStatusResponse) :
  queries (iteration job onProgress s) = 1%nat.
Proof. by destruct onProgress. Qed.

Lemma still_active_spec (st : JobStatus) :
  still_active st = true <-> st = pending \/ st = processing.
Proof. destruct st; simpl; intuition congruence. Qed.

Lemma poll_loop_ok job onProgress s rest :
  poll_loop job onProgress (ROk s :: rest)
  = if still_active (status s)
    then (iteration job onProgress s ++ fst (poll_loop job onProgress rest),
          snd (poll_loop job onProgress rest))
    else (iteration job onProgress s, after_loop s).
Proof.
  cbn [poll_loop]. by destruct (poll_loop job onProgress rest).
Qed.

(** Over a prefix of active statuses the loop goes round once per reply
    and then behaves as on the rest of the script. *)
Lemma poll_loop_active_prefix job onProgress pre rest :
  all_active pre = true ->
  snd (poll_loop job onProgress (pre ++ rest))
  = snd (poll_loop job onProgress rest)
  /\ queries (fst (poll_loop job onProgress (pre ++ rest)))
     = (length pre + queries (fst (poll_loop job onProgress rest)))%nat.
Proof.
  induction pre as [|r pre IH]; intros Hact; [done|].
  apply andb_prop in Hact as [Hr Hpre].
  destruct r as [s|e]; [|done].
  specialize (IH Hpre) as [IHo IHq].
  rewrite <- app_comm_cons, poll_loop_ok, Hr. cbn [fst snd].
  split; [done|].
  rewrite queries_app, queries_iteration, IHq. simpl. lia.
Qed.

Lemma poll_loop_queries_pos job onProgress replies :
  (1 <= queries (fst (poll_loop job onProgress replies)))%nat.
Proof.
  destruct replies as [|[s|e] rest]; [done| |done].
  rewrite poll_loop_ok.
  destruct (still_active (status s)); cbn [fst];
    rewrite ?queries_app, queries_iteration; lia.
Qed.

(** On a terminal status the loop stops: one query for this reply, and
    the outcome is decided by lines 42-50. *)
Lemma poll_loop_terminal job onProgress s rest :
  still_active (status s) = false ->
  snd (poll_loop job onProgress (ROk s :: rest)) = after_loop s
  /\ queries (fst (poll_loop job onProgress (ROk s :: rest))) = 1%nat.
Proof.
  intros Hs. rewrite poll_loop_ok, Hs. cbn [fst snd].
  by rewrite queries_iteration.
Qed.

Lemma poll_loop_continues job onProgress s rest :
  still_active (status s) = true ->
  (2 <= queries (fst (poll_loop job onProgress (ROk s :: rest))))%nat.
Proof.
  intros Hs. rewrite poll_loop_ok, Hs. cbn [fst].
  pose proof (poll_loop_queries_pos job onProgress rest) as Hpos.
  rewrite queries_app, queries_iteration. lia.
Qed.

Lemma helper_unfold request onProgress jr replies :
  createBulkAddJobWithPolling request onProgress (Some (ROk jr)) replies
  = (EvCreateJob request :: fst (poll_loop (jr_job_id jr) onProgress replies),
     snd (poll_loop (jr_job_id jr) onProgress replies)).
Proof.
  unfold createBulkAddJobWithPolling.
  by destruct (poll_loop (jr_job_id jr) onProgress replies).
Qed.

Lemma queries_create request tr :
  queries (EvCreateJob request :: tr) = queries tr.
Proof. done. Qed.

End PollingHelper.

(** ** The polling manager *)

Section PollingManager.

Import BulkOperations.

Lemma queries_emit e w :
  queries (log (emit e w))
  = (queries (log w) + (if is_query e then 1 else 0))%nat.
Proof.
  unfold emit; simpl. rewrite queries_app. f_equal.
  by destruct e.
Qed.

Lemma startPolling_polling job cb :
  polling job (startPolling job cb initial_world)
  /\ queries (log (startPolling job cb initial_world)) = 1%nat.
Proof. done. Qed.

Lemma reply_unfold job r w :
  polling job w ->
  handle (InReply job r) w = pollJob_resume job r (set_inflight [] w).
Proof.
  intros [_ Hin]. unfold handle. rewrite Hin.
  rewrite decide_True by set_solver.
  simpl. by rewrite decide_True.
Qed.

Lemma timer_job_single h job : timer_job h [(h, job)] = Some job.
Proof.
  unfold timer_job. rewrite filter_cons. simpl.
  by rewrite decide_True.
Qed.

Lemma timers_without_single h (job : string) :
  filter (fun t : positive * string => t.1 <> h) [(h, job)] = [].
Proof. rewrite filter_cons. simpl. by rewrite decide_False by auto. Qed.

(** An active status: the callback is notified, a timeout is armed, and
    when it elapses the next query goes out. *)
Lemma round_active job s w :
  polling job w -> still_active (status s) = true ->
  let w1 := handle (InReply job (ROk s)) w in
  timers w1 = [(next_handle w, job)]
  /\ pollInterval w1 = Some (next_handle w)
  /\ polling job (handle (InTimer (next_handle w)) w1)
  /\ queries (log (handle (InTimer (next_handle w)) w1))
     = S (queries (log w)).
Proof.
  intros Hp Hs. cbn zeta. rewrite (reply_unfold _ _ _ Hp).
  destruct Hp as [Ht Hi]. destruct w as [pi cb ts nh inf lg].
  simpl in Ht, Hi. subst ts inf.
  unfold pollJob_resume. rewrite Hs.
  destruct cb as [cb|]; simpl;
    rewrite timer_job_single, timers_without_single; simpl;
    (split; [done|]); (split; [done|]); (split; [done|]);
    rewrite !queries_app; unfold queries; simpl; lia.
Qed.

(** A terminal status: the callback is notified and nothing is armed. *)
Lemma round_terminal job s w :
  polling job w -> still_active (status s) = false ->
  let w1 := handle (InReply job (ROk s)) w in
  timers w1 = [] /\ inflight w1 = []
  /\ queries (log w1) = queries (log w).
Proof.
  intros Hp Hs. cbn zeta. rewrite (reply_unfold _ _ _ Hp).
  destruct Hp as [Ht Hi]. destruct w as [pi cb ts nh inf lg].
  simpl in Ht, Hi. subst ts inf.
  unfold pollJob_resume. rewrite Hs.
  destruct cb as [cb|]; simpl; (split; [done|]); (split; [done|]);
    rewrite ?queries_app; unfold queries; simpl; lia.
Qed.

(** A failed query: nothing is armed. *)
Lemma round_error job e w :
  polling job w ->
  let w1 := handle (InReply job (RError e)) w in
  timers w1 = [] /\ inflight w1 = []
  /\ queries (log w1) = queries (log w).
Proof.
  intros Hp. cbn zeta. rewrite (reply_unfold _ _ _ Hp).
  destruct Hp as [Ht Hi]. destruct w as [pi cb ts nh inf lg].
  simpl in Ht, Hi. subst ts inf.
  unfold pollJob_resume, stopPolling.
  destruct pi as [h|]; simpl; (split; [done|]); (split; [done|]);
    rewrite ?queries_app; unfold queries; simpl;
    rewrite ?filter_app, ?length_app; simpl; lia.
Qed.

Lemma drive_active_prefix job pre rest w :
  polling job w -> all_active pre = true ->
  exists w',
    polling job w'
    /\ drive job (pre ++ rest) w = drive job rest w'
    /\ queries (log w') = (queries (log w) + length pre)%nat.
Proof.
  revert w. induction pre as [|r pre IH]; intros w Hp Hact.
  - exists w. simpl. split_and!; [done|done|lia].
  - apply andb_prop in Hact as [Hr Hpre].
    destruct r as [s|e]; [|done].
    destruct (round_active job s w Hp Hr) as (Ht & _ & Hp' & Hq).
    destruct (IH _ Hp' Hpre) as (w' & Hw' & Hd & Hq').
    exists w'. split; [done|]. split.
    + rewrite <- app_comm_cons. cbn [drive]. by rewrite Ht.
    + rewrite Hq', Hq. simpl. lia.
Qed.

Lemma drive_queries_mono job replies w :
  polling job w ->
  (queries (log w) <= queries (log (drive job replies w)))%nat.
Proof.
  revert w. induction replies as [|r rest IH]; intros w Hp; [done|].
  cbn [drive]. destruct r as [s|e].
  - destruct (still_active (status s)) eqn:Hs.
    + destruct (round_active job s w Hp Hs) as (Ht & _ & Hp' & Hq).
      rewrite Ht. specialize (IH _ Hp'). lia.
    + destruct (round_terminal job s w Hp Hs) as (Ht & _ & Hq).
      rewrite Ht. lia.
  - destruct (round_error job e w Hp) as (Ht & _ & Hq).
    rewrite Ht. lia.
Qed.

End PollingManager.

(** ** What the polling loops do with the statuses they observe *)

Section PollingClaims.

Import BulkOperations.

(** C2 (as stated, refuted): a run whose first terminal status is
    [cancelled] does not return to its caller; it throws. *)
Lemma cancelled_run_does_not_return :
  snd (createBulkAddJobWithPolling Samples.a_request true
         (Some (ROk Samples.a_job))
         [ROk (Samples.a_status processing 1 None);
          ROk (Samples.a_status cancelled 1 None)])
  = Threw "Job was cancelled"
  /\ forall v,
      snd (createBulkAddJobWithPolling Samples.a_request true
             (Some (ROk Samples.a_job))
             [ROk (Samples.a_status processing 1 None);
              ROk (Samples.a_status cancelled 1 None)])
      <> Returned v.
Proof. split; [reflexivity|]. intros v. vm_compute. discriminate. Qed.

(** C2 (amended): when the first terminal status that
    createBulkAddJobWithPolling observes is [cancelled], the helper stops
    polling (the query that observed it is the last one) and throws an
    error with the message "Job was cancelled". *)
Theorem cancelled_status_stops_and_throws
    request onProgress jr pre s rest :
  all_active pre = true ->
  status s = cancelled ->
  snd (createBulkAddJobWithPolling request onProgress (Some (ROk jr))
         (pre ++ ROk s :: rest))
  = Threw "Job was cancelled"
  /\ queries (fst (createBulkAddJobWithPolling request onProgress
                     (Some (ROk jr)) (pre ++ ROk s :: rest)))
     = S (length pre).
Proof.
  intros Hpre Hs. rewrite helper_unfold. cbn [fst snd].
  destruct (poll_loop_active_prefix (jr_job_id jr) onProgress pre
              (ROk s :: rest) Hpre) as [Ho Hq].
  destruct (poll_loop_terminal (jr_job_id jr) onProgress s rest) as [Ho' Hq'].
  { by rewrite Hs. }
  rewrite queries_create, Ho, Hq, Ho', Hq'. split; [|lia].
  unfold after_loop. rewrite Hs. done.
Qed.

Lemma cancelled_status_stops_and_throws_witness :
  snd (createBulkAddJobWithPolling Samples.a_request true
         (Some (ROk Samples.a_job))
         ([ROk (Samples.a_status pending 0 None)]
          ++ ROk (Samples.a_status cancelled 1 None) :: []))
  = Threw "Job was cancelled"
  /\ queries (fst (createBulkAddJobWithPolling Samples.a_request true
                     (Some (ROk Samples.a_job))
                     ([ROk (Samples.a_status pending 0 None)]
                      ++ ROk (Samples.a_status cancelled 1 None) :: [])))
     = 2%nat.
Proof.
  apply (cancelled_status_stops_and_throws Samples.a_request true
           Samples.a_job [ROk (Samples.a_status pending 0 None)]
           (Samples.a_status cancelled 1 None) []);
    reflexivity.
Defined.

(** C5: when createBulkAddJobWithPolling observes the terminal status
    [failed], it throws; and when the job carries a non-empty
    error_message, as a failed job does, the message of the error is that
    error_message. *)
Theorem failed_status_throws_error_message
    request onProgress jr pre s rest :
  all_active pre = true ->
  status s = failed ->
  (exists message,
      snd (createBulkAddJobWithPolling request onProgress (Some (ROk jr))
             (pre ++ ROk s :: rest)) = Threw message
      /\ message <> EmptyString)
  /\ forall m,
      error_message s = Some m -> m <> EmptyString ->
      snd (createBulkAddJobWithPolling request onProgress (Some (ROk jr))
             (pre ++ ROk s :: rest)) = Threw m.
Proof.
  intros Hpre Hs. rewrite helper_unfold. cbn [snd].
  destruct (poll_loop_active_prefix (jr_job_id jr) onProgress pre
              (ROk s :: rest) Hpre) as [Ho _].
  destruct (poll_loop_terminal (jr_job_id jr) onProgress s rest) as [Ho' _].
  { by rewrite Hs. }
  rewrite Ho, Ho'. unfold after_loop. rewrite Hs. simpl. split.
  - eexists. split; [reflexivity|].
    unfold or_else. destruct (error_message s) as [[|c m]|]; done.
  - intros m -> Hm. destruct m; done.
Qed.

Lemma failed_status_throws_error_message_witness :
  snd (createBulkAddJobWithPolling Samples.a_request true
         (Some (ROk Samples.a_job))
         ([ROk (Samples.a_status processing 1 None)]
          ++ ROk (Samples.a_status failed 1 (Some "source not found"))
             :: []))
  = Threw "source not found".
Proof.
  apply (failed_status_throws_error_message Samples.a_request true
           Samples.a_job [ROk (Samples.a_status processing 1 None)]
           (Samples.a_status failed 1 (Some "source not found")) []);
    [reflexivity | reflexivity | reflexivity | discriminate].
Defined.

End PollingClaims.

Section PollingContract.

Import BulkOperations.

Lemma helper_queries request onProgress jr pre s rest :
  all_active pre = true ->
  queries (fst (createBulkAddJobWithPolling request onProgress
                  (Some (ROk jr)) (pre ++ ROk s :: rest)))
  = (length pre
     + queries (fst (poll_loop (jr_job_id jr) onProgress (ROk s :: rest))))%nat.
Proof.
  intros Hpre. rewrite helper_unfold. cbn [fst]. rewrite queries_create.
  by destruct (poll_loop_active_prefix (jr_job_id jr) onProgress pre
                 (ROk s :: rest) Hpre) as [_ ->].
Qed.

Lemma manager_queries job cb pre s rest :
  all_active pre = true ->
  if still_active (status s)
  then (S (S (length pre))
        <= queries (log (poll_with_manager job cb (pre ++ ROk s :: rest))))%nat
  else queries (log (poll_with_manager job cb (pre ++ ROk s :: rest)))
       = S (length pre).
Proof.
  intros Hpre. unfold poll_with_manager.
  destruct (startPolling_polling job cb) as [Hp0 Hq0].
  destruct (drive_active_prefix job pre (ROk s :: rest) _ Hp0 Hpre)
    as (w' & Hp' & -> & Hq').
  rewrite Hq0 in Hq'. cbn [drive].
  destruct (still_active (status s)) eqn:Hs.
  - destruct (round_active job s w' Hp' Hs) as (Ht & _ & Hp2 & Hq2).
    rewrite Ht.
    pose proof (drive_queries_mono job rest _ Hp2). lia.
  - destruct (round_terminal job s w' Hp' Hs) as (Ht & _ & Hq2).
    rewrite Ht. lia.
Qed.

(** C4: in both polling loops, after a status has been observed (the
    replies before it were all [pending] or [processing]), a further
    status query is issued if and only if that status is [pending] or
    [processing]; the query that observes a terminal status is the last
    one. *)
Theorem further_query_iff_status_active
    request onProgress jr job cb pre s rest :
  all_active pre = true ->
  ((S (length pre)
    < queries (fst (createBulkAddJobWithPolling request onProgress
                      (Some (ROk jr)) (pre ++ ROk s :: rest))))%nat
   <-> status s = pending \/ status s = processing)
  /\ ((S (length pre)
       < queries (log (poll_with_manager job cb (pre ++ ROk s :: rest))))%nat
      <-> status s = pending \/ status s = processing)
  /\ (S (length pre)
      <= queries (fst (createBulkAddJobWithPolling request onProgress
                         (Some (ROk jr)) (pre ++ ROk s :: rest))))%nat
  /\ (S (length pre)
      <= queries (log (poll_with_manager job cb (pre ++ ROk s :: rest))))%nat.
Proof.
  intros Hpre.
  pose proof (helper_queries request onProgress jr pre s rest Hpre) as Hh.
  pose proof (manager_queries job cb pre s rest Hpre) as Hm.
  rewrite <- !still_active_spec.
  destruct (still_active (status s)) eqn:Hs.
  - pose proof (poll_loop_continues (jr_job_id jr) onProgress s rest Hs).
    split_and!; try split; try done; lia.
  - destruct (poll_loop_terminal (jr_job_id jr) onProgress s rest Hs)
      as [_ Hq].
    split_and!; try split; try done; lia.
Qed.

Lemma further_query_iff_status_active_witness :
  ((2 < queries (fst (createBulkAddJobWithPolling Samples.a_request true
                        (Some (ROk Samples.a_job))
                        ([ROk (Samples.a_status pending 0 None)]
                         ++ ROk (Samples.a_status completed 2 None)
                            :: [ROk (Samples.a_status completed 2 None)]))))%nat
   <-> completed = pending \/ completed = processing)
  /\ ((2 < queries (log (poll_with_manager "job-1" 0
                           ([ROk (Samples.a_status pending 0 None)]
                            ++ ROk (Samples.a_status completed 2 None)
                               :: [ROk (Samples.a_status completed 2 None)]))))%nat
      <-> completed = pending \/ completed = processing).
Proof.
  pose proof (further_query_iff_status_active Samples.a_request true
                Samples.a_job "job-1" 0%nat
                [ROk (Samples.a_status pending 0 None)]
                (Samples.a_status completed 2 None)
                [ROk (Samples.a_status completed 2 None)] eq_refl)
    as (H1 & H2 & _).
  exact (conj H1 H2).
Defined.

End PollingContract.

(** ** A failed status query stops the manager *)

Section PollingFailure.

Import BulkOperations.

Lemma deliveries_emit e w :
  deliveries (log (emit e w))
  = deliveries (log w) ++ (if is_delivery e then [e] else []).
Proof.
  unfold emit, deliveries; simpl. rewrite filter_app. f_equal.
  by destruct e.
Qed.

Lemma stopPolling_fields w :
  pollInterval (stopPolling w) = None
  /\ onProgressCallback (stopPolling w) = None
  /\ deliveries (log (stopPolling w)) = deliveries (log w)
  /\ forall h, pollInterval w = Some h ->
       timer_job h (timers (stopPolling w)) = None
       /\ EvClearTimeout h ∈ log (stopPolling w).
Proof.
  unfold stopPolling. destruct (pollInterval w) as [h|] eqn:Hpi; simpl.
  - split_and!; try done.
    + unfold deliveries. rewrite filter_app. simpl. by rewrite app_nil_r.
    + intros h' [= <-]. split; [|set_solver].
      unfold timer_job.
      destruct (filter _ (filter _ (timers w))) as [|[h1 j1] l] eqn:Hf;
        [done|].
      assert (Hin : (h1, j1) ∈ filter (fun t : positive * string => t.1 = h)
                      (filter (fun t : positive * string => t.1 <> h) (timers w)))
        by (rewrite Hf; set_solver).
      apply list_elem_of_filter in Hin as [Heq Hin].
      apply list_elem_of_filter in Hin as [Hne _]. done.
  - split_and!; done.
Qed.

(** While no callback is registered, nothing that happens to the manager,
    short of a new call of [startPolling], registers one or notifies
    anyone. *)
Lemma handle_without_callback i w :
  is_startPolling i = false ->
  onProgressCallback w = None ->
  onProgressCallback (handle i w) = None
  /\ deliveries (log (handle i w)) = deliveries (log w).
Proof.
  intros Hi Hcb. destruct i as [job cb| |job|job r|h]; [done| | | |].
  - destruct (stopPolling_fields w) as (_ & ? & ? & _). done.
  - cbn [handle]. unfold cancelJob. rewrite deliveries_emit. simpl.
    by rewrite app_nil_r.
  - cbn [handle]. case_decide; [|done].
    destruct r as [s|e].
    + unfold pollJob_resume. simpl. rewrite Hcb.
      destruct (still_active (status s)); simpl; [|done].
      split; [done|]. unfold deliveries. rewrite filter_app. simpl.
      by rewrite app_nil_r.
    + unfold pollJob_resume.
      destruct (stopPolling_fields
                  (emit (EvConsoleError "Error polling job status:")
                     (set_inflight (remove_first job (inflight w)) w)))
        as (_ & ? & Hd & _).
      split; [done|]. rewrite Hd, deliveries_emit. simpl.
      by rewrite app_nil_r.
  - cbn [handle]. destruct (timer_job h (timers w)); [|done].
    unfold pollJob_call. rewrite deliveries_emit. simpl.
    by rewrite app_nil_r.
Qed.

Lemma run_without_callback inputs w :
  existsb is_startPolling inputs = false ->
  onProgressCallback w = None ->
  deliveries (log (run inputs w)) = deliveries (log w).
Proof.
  revert w. induction inputs as [|i inputs IH]; intros w Hi Hcb; [done|].
  simpl in Hi. apply orb_false_elim in Hi as [Hi Hrest].
  destruct (handle_without_callback i w Hi Hcb) as [Hcb' Hd].
  unfold run. simpl. fold (run inputs (handle i w)).
  by rewrite (IH _ Hrest Hcb').
Qed.

(** C8: when the status query of [pollJob] fails, the manager stops
    polling: the timeout recorded in [pollInterval] is cleared and the
    field reset, the progress callback is set to null, no new timeout is
    armed, and whatever happens afterwards, short of a new call of
    [startPolling], no further progress callback is delivered. *)
Theorem failed_query_stops_polling job e w inputs :
  let w' := pollJob_resume job (RError e) w in
  pollInterval w' = None
  /\ onProgressCallback w' = None
  /\ (forall h, pollInterval w = Some h ->
        timer_job h (timers w') = None /\ EvClearTimeout h ∈ log w')
  /\ (forall h j, (h, j) ∈ timers w' -> (h, j) ∈ timers w)
  /\ deliveries (log w') = deliveries (log w)
  /\ (existsb is_startPolling inputs = false ->
      deliveries (log (run inputs w')) = deliveries (log w)).
Proof.
  cbn zeta. unfold pollJob_resume.
  set (w0 := emit (EvConsoleError "Error polling job status:") w).
  destruct (stopPolling_fields w0) as (Hpi & Hcb & Hd & Hclear).
  assert (Hd0 : deliveries (log w0) = deliveries (log w)).
  { subst w0. rewrite deliveries_emit. simpl. by rewrite app_nil_r. }
  split_and!; try done.
  - intros h j. unfold stopPolling.
    destruct (pollInterval w0); simpl; [|done].
    intros Hin. by apply list_elem_of_filter in Hin as [_ Hin].
  - by rewrite Hd.
  - intros Hno. rewrite (run_without_callback _ _ Hno Hcb). by rewrite Hd.
Qed.

Lemma failed_query_stops_polling_witness :
  (BulkOperations.timer_job 1
     (timers (pollJob_resume "job-1" (RError "Network Error")
                Samples.polling_world)) = None
   /\ EvClearTimeout 1
      ∈ log (pollJob_resume "job-1" (RError "Network Error")
               Samples.polling_world))
  /\ deliveries
       (log (run [InTimer 1; InReply "job-1"
                              (ROk (Samples.a_status processing 1 None));
                  InStopPolling]
               (pollJob_resume "job-1" (RError "Network Error")
                  Samples.polling_world)))
     = deliveries (log Samples.polling_world).
Proof.
  destruct (failed_query_stops_polling "job-1" "Network Error"
              Samples.polling_world
              [InTimer 1; InReply "job-1"
                            (ROk (Samples.a_status processing 1 None));
               InStopPolling])
    as (_ & _ & Hclear & _ & _ & Hrun).
  split; [apply (Hclear 1%positive); reflexivity | apply Hrun; reflexivity].
Defined.

End PollingFailure.

(** ** The bulk-add dialog *)

Section Dialog.

Import BulkOperations BulkAddModal.

Lemma truthy_string_spec (s : string) :
  truthy_string s = true <-> s <> EmptyString.
Proof. destruct s; simpl; split; intros; congruence. Qed.

Lemma no_companies_message_nonempty : no_companies_message <> EmptyString.
Proof. done. Qed.

(** What the checks of lines 80-93 decide. *)
Lemma validate_reject p st confirmed :
  if decide (submittable p st)
  then forall message, validate p st confirmed <> Reject message
  else exists message,
      validate p st confirmed = Reject message /\ message <> EmptyString.
Proof.
  unfold validate, submittable.
  destruct (truthy_string (selectedTargetCollectionId st)) eqn:Ht; simpl.
  - apply truthy_string_spec in Ht.
    destruct (decide (sourceCollectionId p = selectedTargetCollectionId st))
      as [Heq|Hne].
    + rewrite decide_False by tauto. eexists. split; [reflexivity|done].
    + destruct (bool_decide (selectionMethod st = selected)) eqn:Hm.
      * apply bool_decide_eq_true in Hm.
        destruct (selectedCompanyIds p) as [|x l] eqn:Hl; simpl.
        -- rewrite decide_False by tauto.
           eexists. split; [reflexivity|apply no_companies_message_nonempty].
        -- rewrite decide_True by done.
           rewrite Hm. simpl. by destruct confirmed.
      * apply bool_decide_eq_false in Hm. simpl.
        rewrite decide_True by done.
        destruct (bool_decide (selectionMethod st = all));
          by destruct confirmed.
  - assert (selectedTargetCollectionId st = EmptyString) as Hempty
      by (by destruct (selectedTargetCollectionId st)).
    rewrite decide_False by tauto. eexists. split; [reflexivity|done].
Qed.

Lemma asked_no_api p st request :
  Api (EvCreateJob request)
  ∉ (if truthy_string (selectedTargetCollectionId st)
        && negb (bool_decide (sourceCollectionId p
                              = selectedTargetCollectionId st))
        && bool_decide (selectionMethod st = all)
     then [Confirm (totalCompaniesInCollection p)] else []).
Proof.
  destruct (_ && _); [|apply not_elem_of_nil].
  intros Hin. by apply list_elem_of_singleton in Hin.
Qed.

(** C6: a submission of the dialog issues a job-creation request only if
    a target collection is selected, the source differs from the target
    and, for the explicit method, some company is selected; otherwise
    [handleSubmit] sets a non-empty error message and returns at once,
    with no request issued and nothing else changed. *)
Theorem submission_is_validated p st confirmed created replies :
  (forall request,
      Api (EvCreateJob request)
      ∈ snd (handleSubmit p st confirmed created replies) ->
      submittable p st)
  /\ (~ submittable p st ->
      exists message,
        message <> EmptyString
        /\ handleSubmit p st confirmed created replies
           = (setError (Some message) st, [])).
Proof.
  pose proof (validate_reject p st confirmed) as Hv.
  destruct (decide (submittable p st)) as [Hs|Hs].
  - split; [done|tauto].
  - destruct Hv as (message & Hv & Hne). split.
    + intros request. unfold handleSubmit. rewrite Hv. set_solver.
    + intros _. exists message. split; [done|].
      unfold handleSubmit. by rewrite Hv.
Qed.

Lemma submission_is_validated_witness :
  submittable Samples.some_props (Samples.dialog_state "c2" selected false)
  /\ exists message,
      message <> EmptyString
      /\ handleSubmit Samples.some_props
           (Samples.dialog_state "c1" selected false) true
           (Some (ROk Samples.a_job)) []
         = (setError (Some message)
              (Samples.dialog_state "c1" selected false), []).
Proof.
  split.
  - apply (proj1 (submission_is_validated Samples.some_props
                    (Samples.dialog_state "c2" selected false) true
                    (Some (ROk Samples.a_job)) [])
             (build_request Samples.some_props
                (Samples.dialog_state "c2" selected false))).
    vm_compute. left.
  - apply (proj2 (submission_is_validated Samples.some_props
                    (Samples.dialog_state "c1" selected false) true
                    (Some (ROk Samples.a_job)) [])).
    intros (_ & Hne & _). apply Hne. reflexivity.
Defined.

End Dialog.

Section DialogRequests.

Import BulkOperations BulkAddModal.

(** C9: while a bulk add is processing, [handleClose] does nothing: the
    state, with its target collection, selection method, error and
    progress, is left as it is, and [onClose] is not called. *)
Theorem handleClose_while_processing render cur :
  isProcessing render = true ->
  handleClose render cur = (cur, [])
  /\ OnClose ∉ snd (handleClose render cur).
Proof.
  intros Hbusy. unfold handleClose. rewrite Hbusy.
  split; [done|apply not_elem_of_nil].
Qed.

Lemma handleClose_while_processing_witness :
  handleClose (Samples.dialog_state "c2" all true)
    (Samples.dialog_state "c2" all true)
  = (Samples.dialog_state "c2" all true, [])
  /\ OnClose ∉ snd (handleClose (Samples.dialog_state "c2" all true)
                      (Samples.dialog_state "c2" all true)).
Proof.
  apply (handleClose_while_processing (Samples.dialog_state "c2" all true)
           (Samples.dialog_state "c2" all true)).
  reflexivity.
Defined.

(** C7: every submit request that the client builds populates exactly one
    field of selection_data, the one of its selection_kind: [ids] is
    defined and [total_at_snapshot] undefined for [explicit], and
    [total_at_snapshot] is defined and [ids] undefined for
    [all_matching]. *)
Theorem selection_data_matches_kind observed_total request :
  client_builds observed_total request ->
  (selection_kind request = explicit ->
   is_Some (ids (selection_data request))
   /\ total_at_snapshot (selection_data request) = None)
  /\ (selection_kind request = all_matching ->
      is_Some (total_at_snapshot (selection_data request))
      /\ ids (selection_data request) = None).
Proof.
  intros [p st confirmed _ _|src tgt sel selectAll].
  - unfold build_request; simpl.
    destruct (decide (selectionMethod st = all)); split; intros; try done;
      split; eauto.
  - unfold startBulkAdd_request; simpl.
    destruct selectAll; split; intros; try done; split; eauto.
Qed.

Lemma selection_data_matches_kind_witness :
  is_Some (total_at_snapshot
             (selection_data
                (build_request Samples.some_props
                   (Samples.dialog_state "c2" all false))))
  /\ ids (selection_data
            (build_request Samples.some_props
               (Samples.dialog_state "c2" all false))) = None.
Proof.
  apply (proj2 (selection_data_matches_kind 40
                  (build_request Samples.some_props
                     (Samples.dialog_state "c2" all false))
                  (built_by_dialog 40 Samples.some_props
                     (Samples.dialog_state "c2" all false) true
                     eq_refl eq_refl))).
  reflexivity.
Defined.

(** C3 (as stated, refuted): a caller that has observed three entities in
    the source collection and starts a bulk add of all of them through
    the manager sends a snapshot total of 0. *)
Lemma manager_snapshot_is_not_the_observed_total :
  client_builds 3 (startBulkAdd_request "c1" "c2" [] true)
  /\ selection_kind (startBulkAdd_request "c1" "c2" [] true) = all_matching
  /\ total_at_snapshot (selection_data (startBulkAdd_request "c1" "c2" [] true))
     <> Some 3.
Proof. split; [constructor|]. split; [reflexivity|discriminate]. Qed.

Lemma poll_loop_no_create job onProgress replies request :
  EvCreateJob request ∉ fst (poll_loop job onProgress replies).
Proof.
  assert (Hiter : forall s, EvCreateJob request ∉ iteration job onProgress s).
  { intros s Hin. unfold iteration in Hin.
    destruct onProgress; simpl in Hin;
      repeat (apply elem_of_cons in Hin as [Hin|Hin]; [done|]);
      by apply not_elem_of_nil in Hin. }
  induction replies as [|[s|e] rest IH]; intros Hin.
  - simpl in Hin.
    repeat (apply elem_of_cons in Hin as [Hin|Hin]; [done|]).
    by apply not_elem_of_nil in Hin.
  - rewrite poll_loop_ok in Hin.
    destruct (still_active (status s)); cbn [fst] in Hin.
    + apply elem_of_app in Hin as [Hin|Hin]; [by apply (Hiter s)|done].
    + by apply (Hiter s).
  - simpl in Hin.
    repeat (apply elem_of_cons in Hin as [Hin|Hin]; [done|]).
    by apply not_elem_of_nil in Hin.
Qed.

Lemma helper_creates request onProgress created replies r :
  EvCreateJob r
  ∈ fst (createBulkAddJobWithPolling request onProgress created replies) ->
  r = request.
Proof.
  unfold createBulkAddJobWithPolling.
  destruct created as [[jr|e]|]; [|by intros [= ->]%list_elem_of_singleton..].
  pose proof (poll_loop_no_create (jr_job_id jr) onProgress replies r) as Hno.
  destruct (poll_loop (jr_job_id jr) onProgress replies) as [tr out].
  cbn [fst] in *. intros [[= ->]|Hin]%elem_of_cons; done.
Qed.

(** The only request that [handleSubmit] posts is the one of lines
    106-114, and it posts it only when the checks have passed. *)
Lemma handleSubmit_requests p st confirmed created replies r :
  Api (EvCreateJob r) ∈ snd (handleSubmit p st confirmed created replies) ->
  r = build_request p st /\ validate p st confirmed = Proceed.
Proof.
  unfold handleSubmit.
  destruct (validate p st confirmed) eqn:Hv; cbn [snd].
  - by intros ?%not_elem_of_nil.
  - by intros ?%asked_no_api.
  - pose proof (helper_creates (build_request p st) true created replies r)
      as Hcreate.
    destruct (createBulkAddJobWithPolling (build_request p st) true created
                replies) as [tr out].
    cbn [fst] in Hcreate.
    assert (Hapi : Api (EvCreateJob r)
                   ∈ (if truthy_string (selectedTargetCollectionId st)
                         && negb (bool_decide (sourceCollectionId p
                                     = selectedTargetCollectionId st))
                         && bool_decide (selectionMethod st = all)
                      then [Confirm (totalCompaniesInCollection p)] else [])
                     ++ map Api tr ->
                   r = build_request p st).
    { intros [Hin|Hin]%elem_of_app; [by apply asked_no_api in Hin|].
      apply list_elem_of_fmap in Hin as (e & [= <-] & Hin). auto. }
    destruct out as [v|message|]; cbn [snd].
    + unfold handleClose. destruct (isProcessing st); cbn [snd];
        intros [Hin|Hin]%elem_of_app; auto;
        repeat (apply elem_of_cons in Hin as [Hin|Hin]; [done|]);
        by apply not_elem_of_nil in Hin.
    + auto.
    + auto.
Qed.

(** C3 (amended): every submit request that the bulk-add dialog posts
    with selection_kind [all_matching] carries as total_at_snapshot the
    total of the source collection that its caller observed and passed in
    [totalCompaniesInCollection]; a request that
    [BulkOperationManager.startBulkAdd] builds with [all_matching]
    carries 0 instead and leaves the count to the backend. *)
Theorem all_matching_snapshot_total
    p st confirmed created replies request src tgt sel :
  Api (EvCreateJob request)
  ∈ snd (handleSubmit p st confirmed created replies) ->
  selection_kind request = all_matching ->
  total_at_snapshot (selection_data request)
  = Some (totalCompaniesInCollection p)
  /\ selection_kind (startBulkAdd_request src tgt sel true) = all_matching
  /\ total_at_snapshot (selection_data (startBulkAdd_request src tgt sel true))
     = Some 0.
Proof.
  intros [-> _]%handleSubmit_requests Hkind. split; [|done].
  revert Hkind. unfold build_request; simpl.
  by destruct (decide (selectionMethod st = all)).
Qed.

Lemma all_matching_snapshot_total_witness :
  total_at_snapshot
    (selection_data
       (build_request Samples.some_props
          (Samples.dialog_state "c2" all false)))
  = Some 40
  /\ selection_kind (startBulkAdd_request "c1" "c2" [JNum 5] true)
     = all_matching
  /\ total_at_snapshot
       (selection_data (startBulkAdd_request "c1" "c2" [JNum 5] true))
     = Some 0.
Proof.
  apply (all_matching_snapshot_total Samples.some_props
           (Samples.dialog_state "c2" all false) true
           (Some (ROk Samples.a_job)) []
           (build_request Samples.some_props
              (Samples.dialog_state "c2" all false))
           "c1" "c2" [JNum 5]).
  - vm_compute. right. left.
  - reflexivity.
Defined.

End DialogRequests.

(** ** The selection of the company table *)

Section TableSelection.

Import CompanyTable.

Variable StringToNumber : string -> JsNumber.

Lemma includes_false (arr : list JsNumber) (x : JsNumber) :
  includes arr x = false <-> x ∉ arr.
Proof. unfold includes. apply bool_decide_eq_false. Qed.

Lemma otherPagesSelection_keeps st x :
  x ∈ selectedCompanyIds st -> x ∉ currentPageIds st ->
  x ∈ otherPagesSelection st.
Proof.
  intros Hsel Hpage. unfold otherPagesSelection.
  apply list_elem_of_filter. split; [|done].
  by apply includes_false.
Qed.

(** C10: whatever selection change the table handles, every company id
    that was selected and is not an id of the page on display is still
    selected afterwards.  This holds for the handler of CompanyTable.tsx
    and for the two other versions of it. *)
Theorem selection_of_other_pages_preserved newSelection st x :
  x ∈ selectedCompanyIds st ->
  x ∉ currentPageIds st ->
  x ∈ selectedCompanyIds (handleSelectionChange StringToNumber newSelection st)
  /\ x ∈ selectedCompanyIds
          (handleSelectionChange_simple StringToNumber newSelection st)
  /\ x ∈ selectedCompanyIds
          (handleSelectionChange_sync StringToNumber newSelection st).
Proof.
  intros Hsel Hpage.
  pose proof (otherPagesSelection_keeps st x Hsel Hpage) as Hkeep.
  split_and!.
  - unfold handleSelectionChange; simpl. apply elem_of_app. by left.
  - unfold handleSelectionChange_simple; simpl. apply elem_of_app. by left.
  - unfold handleSelectionChange_sync.
    destruct (_ && _); simpl; [done|]. apply elem_of_app. by left.
Qed.

End TableSelection.

Lemma selection_of_other_pages_preserved_witness :
  JNum 3
  ∈ CompanyTable.selectedCompanyIds
      (CompanyTable.handleSelectionChange CompanyTable.decimal_StringToNumber
         [CompanyTable.RowString "27"] Samples.table_state)
  /\ JNum 3
     ∈ CompanyTable.selectedCompanyIds
         (CompanyTable.handleSelectionChange_simple
            CompanyTable.decimal_StringToNumber
            [CompanyTable.RowString "27"] Samples.table_state)
  /\ JNum 3
     ∈ CompanyTable.selectedCompanyIds
         (CompanyTable.handleSelectionChange_sync
            CompanyTable.decimal_StringToNumber
            [CompanyTable.RowString "27"] Samples.table_state).
Proof.
  apply (selection_of_other_pages_preserved
           CompanyTable.decimal_StringToNumber
           [CompanyTable.RowString "27"] Samples.table_state (JNum 3)).
  - apply (bool_decide_unpack _). vm_compute. exact I.
  - apply (bool_decide_unpack _). vm_compute. exact I.
Defined.

(** ** The counters of a job *)

Section JobCounters.

Import JobEngine.

Lemma accounted_consistent e : accounted e -> counters_consistent (job e).
Proof.
  intros [Hsum Htodo]. split; [done|].
  destruct (todo e); lia.
Qed.

Lemma submit_accounted m src tgt sel : accounted (submit m src tgt sel).
Proof. done. Qed.

(** Case analysis on the tests that a step makes. *)
Ltac step_cases H :=
  repeat match type of H with
         | context [if ?c then _ else _] => destruct c eqn:?
         | context [match ?x with _ => _ end] => destruct x eqn:?
         end;
  try discriminate H; injection H as <-.

Lemma exec_step_accounted a e e' :
  exec_step a e = Some e' -> accounted e -> accounted e'.
Proof.
  unfold accounted. intros Hstep [Hsum Htodo].
  destruct a as [| |add_failure| |m|message]; simpl in Hstep.
  - step_cases Hstep. done.
  - destruct (todo e) as [l|] eqn:Ht; step_cases Hstep;
      destruct Htodo as [Hp Htot]; simpl; rewrite ?Ht; lia.
  - destruct (todo e) as [[|x rest]|] eqn:Ht; step_cases Hstep;
      simpl in *; rewrite ?Ht; simpl; lia.
  - step_cases Hstep. done.
  - step_cases Hstep. done.
  - step_cases Hstep. done.
Qed.

Lemma observe_accounted actions e :
  accounted e -> Forall accounted (observe actions e).
Proof.
  revert e. induction actions as [|a actions IH]; intros e He; [done|].
  cbn [observe].
  assert (accounted (default e (exec_step a e))) as He'.
  { destruct (exec_step a e) as [e'|] eqn:Hstep; [|done].
    by apply (exec_step_accounted a e). }
  constructor; auto.
Qed.

(** The example of section 8 of the spec: explicit ids [5, 5, 7] against
    a target that already holds 5. *)
Example explicit_5_5_7 :
  (fun j => (status j, total_items j, added_items j, skipped_items j,
             failed_items j))
    <$> (job <$> last (observe [Claim; ValidateAndResolve; NextItem None;
                                NextItem None; NextItem None]
                         (submit Samples.a_store "c1" "c2"
                            (Explicit [5; 5; 7]))))
  = Some (completed, 2, 1, 1, 0).
Proof. vm_compute. reflexivity. Qed.

(** C1: in every state that a job goes through from its creation on,
    whatever the worker, the callers and the store do,
    processed_items = added_items + skipped_items + failed_items and
    processed_items <= total_items. *)
Theorem counters_consistent_at_every_instant m src tgt sel actions :
  counters_consistent (job (submit m src tgt sel))
  /\ Forall (fun e => counters_consistent (job e))
       (observe actions (submit m src tgt sel)).
Proof.
  split; [by apply accounted_consistent|].
  eapply Forall_impl;
    [apply observe_accounted, submit_accounted|apply accounted_consistent].
Qed.

End JobCounters.

(** * Further properties of the client *)

(** ** The polling helper, from the outside *)

Section HelperTrace.

Import BulkOperations.

Lemma poll_loop_trace job onProgress replies :
  fst (poll_loop job onProgress replies)
  = concat (map (iteration job onProgress) (observed replies))
    ++ (if forallb (fun s => still_active (status s)) (observed replies)
        then [EvSleep 1000; EvGetStatus job] else []).
Proof.
  induction replies as [|[s|e] rest IH]; [done| |done].
  rewrite poll_loop_ok. cbn [observed].
  destruct (still_active (status s)) eqn:Hs; cbn [fst map concat forallb].
  - rewrite Hs, IH. cbn [andb]. by rewrite <- app_assoc.
  - rewrite Hs. cbn [andb map concat]. by rewrite !app_nil_r.
Qed.

(** X1: once the job is created, the trace of the helper is the creation
    request, then one iteration per observed status (a wait of a second,
    the query, then the notification of [onProgress] when there is one),
    and one more wait and query when no terminal status was observed. *)
Theorem helper_trace request onProgress jr replies :
  fst (createBulkAddJobWithPolling request onProgress (Some (ROk jr)) replies)
  = EvCreateJob request
    :: concat (map (iteration (jr_job_id jr) onProgress) (observed replies))
    ++ (if forallb (fun s => still_active (status s)) (observed replies)
        then [EvSleep 1000; EvGetStatus (jr_job_id jr)] else []).
Proof. rewrite helper_unfold. cbn [fst]. by rewrite poll_loop_trace. Qed.

Lemma notifications_app (a b : list event) :
  notifications (a ++ b) = notifications a ++ notifications b.
Proof. unfold notifications. by rewrite filter_app. Qed.

(** X2: [onProgress] is called once for every status that the helper
    observes, in order, and never otherwise; without [onProgress] nothing
    is notified. *)
Theorem helper_notifications request onProgress jr replies :
  notifications (fst (createBulkAddJobWithPolling request onProgress
                        (Some (ROk jr)) replies))
  = if onProgress then map EvOnProgress (observed replies) else [].
Proof.
  rewrite helper_unfold. cbn [fst].
  change (notifications (EvCreateJob request
                         :: fst (poll_loop (jr_job_id jr) onProgress replies)))
    with (notifications (fst (poll_loop (jr_job_id jr) onProgress replies))).
  induction replies as [|[s|e] rest IH]; [by destruct onProgress| |by destruct onProgress].
  rewrite poll_loop_ok. cbn [observed].
  destruct (still_active (status s)); cbn [fst].
  - rewrite notifications_app, IH. by destruct onProgress.
  - by destruct onProgress.
Qed.

(** X3: the helper returns only a [completed] status, and the status it
    returns is the last one that it observed. *)
Theorem helper_returns_only_completed request onProgress created replies v :
  snd (createBulkAddJobWithPolling request onProgress created replies)
  = Returned v ->
  status v = completed /\ last (observed replies) = Some v.
Proof.
  unfold createBulkAddJobWithPolling.
  destruct created as [[jr|e]|]; [|done..].
  destruct (poll_loop (jr_job_id jr) onProgress replies) as [tr out] eqn:Hp.
  cbn [snd]. intros ->.
  assert (snd (poll_loop (jr_job_id jr) onProgress replies) = Returned v)
    as Hout by (by rewrite Hp).
  clear Hp tr. revert Hout.
  induction replies as [|[s|e] rest IH]; [done| |done].
  rewrite poll_loop_ok. cbn [observed].
  destruct (still_active (status s)) eqn:Hs; cbn [snd].
  - intros Hout. destruct (IH Hout) as [Hv Hlast]. split; [done|].
    destruct (observed rest); [done|]. done.
  - unfold after_loop. repeat case_decide; try done.
    intros [= <-]. split; [|done].
    destruct (status s); done.
Qed.

Lemma helper_returns_only_completed_witness :
  status (Samples.a_status completed 2 None) = completed
  /\ last (observed [ROk (Samples.a_status processing 1 None);
                     ROk (Samples.a_status completed 2 None)])
     = Some (Samples.a_status completed 2 None).
Proof.
  apply (helper_returns_only_completed Samples.a_request true
           (Some (ROk Samples.a_job))
           [ROk (Samples.a_status processing 1 None);
            ROk (Samples.a_status completed 2 None)]).
  reflexivity.
Defined.

(** X4: when the first terminal status observed is [completed], the helper
    returns that very status, after as many queries as statuses observed. *)
Theorem completed_status_is_returned request onProgress jr pre s rest :
  all_active pre = true ->
  status s = completed ->
  snd (createBulkAddJobWithPolling request onProgress (Some (ROk jr))
         (pre ++ ROk s :: rest))
  = Returned s
  /\ queries (fst (createBulkAddJobWithPolling request onProgress
                     (Some (ROk jr)) (pre ++ ROk s :: rest)))
     = S (length pre).
Proof.
  intros Hpre Hs. rewrite helper_unfold. cbn [fst snd].
  destruct (poll_loop_active_prefix (jr_job_id jr) onProgress pre
              (ROk s :: rest) Hpre) as [Ho Hq].
  destruct (poll_loop_terminal (jr_job_id jr) onProgress s rest) as [Ho' Hq'].
  { by rewrite Hs. }
  rewrite queries_create, Ho, Hq, Ho', Hq'. split; [|lia].
  unfold after_loop. by rewrite Hs.
Qed.

Lemma completed_status_is_returned_witness :
  snd (createBulkAddJobWithPolling Samples.a_request false
         (Some (ROk Samples.a_job))
         ([ROk (Samples.a_status pending 0 None);
           ROk (Samples.a_status processing 1 None)]
          ++ ROk (Samples.a_status completed 2 None) :: []))
  = Returned (Samples.a_status completed 2 None)
  /\ queries (fst (createBulkAddJobWithPolling Samples.a_request false
                     (Some (ROk Samples.a_job))
                     ([ROk (Samples.a_status pending 0 None);
                       ROk (Samples.a_status processing 1 None)]
                      ++ ROk (Samples.a_status completed 2 None) :: [])))
     = 3%nat.
Proof.
  apply (completed_status_is_returned Samples.a_request false Samples.a_job
           [ROk (Samples.a_status pending 0 None);
            ROk (Samples.a_status processing 1 None)]
           (Samples.a_status completed 2 None) []);
    reflexivity.
Defined.

(** X5: a status query that fails ends the helper with the error of the
    query: the error is thrown to the caller, no further query is issued
    and [onProgress] is not called for it. *)
Theorem failed_query_is_rethrown request onProgress jr pre e rest :
  all_active pre = true ->
  snd (createBulkAddJobWithPolling request onProgress (Some (ROk jr))
         (pre ++ RError e :: rest))
  = Threw e
  /\ queries (fst (createBulkAddJobWithPolling request onProgress
                     (Some (ROk jr)) (pre ++ RError e :: rest)))
     = S (length pre)
  /\ length (notifications
               (fst (createBulkAddJobWithPolling request onProgress
                       (Some (ROk jr)) (pre ++ RError e :: rest))))
     = if onProgress then length pre else 0%nat.
Proof.
  intros Hpre. rewrite helper_notifications, helper_unfold. cbn [fst snd].
  destruct (poll_loop_active_prefix (jr_job_id jr) onProgress pre
              (RError e :: rest) Hpre) as [Ho Hq].
  rewrite queries_create, Ho, Hq. split_and!; [done| |].
  { change (queries (fst (poll_loop (jr_job_id jr) onProgress
                            (RError e :: rest)))) with 1%nat. lia. }
  destruct onProgress; [|done].
  rewrite length_map. clear Ho Hq.
  induction pre as [|[s|e'] pre IH]; [done| |done].
  apply andb_prop in Hpre as [Hs Hpre].
  rewrite <- app_comm_cons. cbn [observed length]. rewrite Hs.
  by rewrite (IH Hpre).
Qed.

Lemma failed_query_is_rethrown_witness :
  snd (createBulkAddJobWithPolling Samples.a_request true
         (Some (ROk Samples.a_job))
         ([ROk (Samples.a_status pending 0 None)]
          ++ RError "Network Error"
             :: [ROk (Samples.a_status completed 2 None)]))
  = Threw "Network Error".
Proof.
  apply (failed_query_is_rethrown Samples.a_request true Samples.a_job
           [ROk (Samples.a_status pending 0 None)] "Network Error"
           [ROk (Samples.a_status completed 2 None)]).
  reflexivity.
Defined.

End HelperTrace.

(** ** The polling manager, from the outside *)

Section ManagerUse.

Import BulkOperations.

Lemma deliveries_app (a b : list event) :
  deliveries (a ++ b) = deliveries a ++ deliveries b.
Proof. unfold deliveries. by rewrite filter_app. Qed.

(** The two rounds of a chain again, with what they notify. *)
Lemma round_active_delivers job s w cb :
  polling job w -> onProgressCallback w = Some cb ->
  still_active (status s) = true ->
  let w2 := handle (InTimer (next_handle w)) (handle (InReply job (ROk s)) w) in
  onProgressCallback w2 = Some cb
  /\ deliveries (log w2)
     = deliveries (log w) ++ [EvProgressCallback cb (to_progress job s)].
Proof.
  intros Hp Hcb Hs. cbn zeta. rewrite (reply_unfold _ _ _ Hp).
  destruct Hp as [Ht Hi]. destruct w as [pi c ts nh inf lg].
  simpl in Ht, Hi, Hcb. subst ts inf c.
  unfold pollJob_resume. rewrite Hs. simpl.
  rewrite timer_job_single, timers_without_single. simpl.
  split; [done|]. rewrite !deliveries_app. simpl. by rewrite !app_nil_r.
Qed.

Lemma round_last_delivers job r w cb :
  polling job w -> onProgressCallback w = Some cb ->
  match r with ROk s => still_active (status s) = false | RError _ => True end ->
  deliveries (log (handle (InReply job r) w))
  = deliveries (log w)
    ++ match r with
       | ROk s => [EvProgressCallback cb (to_progress job s)]
       | RError _ => []
       end.
Proof.
  intros Hp Hcb Hr. rewrite (reply_unfold _ _ _ Hp).
  destruct Hp as [Ht Hi]. destruct w as [pi c ts nh inf lg].
  simpl in Ht, Hi, Hcb. subst ts inf c.
  destruct r as [s|e]; unfold pollJob_resume.
  - rewrite Hr. simpl. by rewrite deliveries_app.
  - unfold stopPolling. destruct pi; simpl;
      rewrite !deliveries_app; simpl; by rewrite !app_nil_r.
Qed.

Lemma drive_deliveries job cb replies w :
  polling job w -> onProgressCallback w = Some cb ->
  deliveries (log (drive job replies w))
  = deliveries (log w)
    ++ map (fun s => EvProgressCallback cb (to_progress job s))
         (observed replies).
Proof.
  revert w. induction replies as [|r rest IH]; intros w Hp Hcb.
  { simpl. by rewrite app_nil_r. }
  cbn [drive]. destruct r as [s|e].
  - cbn [observed]. destruct (still_active (status s)) eqn:Hs.
    + destruct (round_active job s w Hp Hs) as (Ht & _ & Hp' & _).
      destruct (round_active_delivers job s w cb Hp Hcb Hs) as [Hcb' Hd].
      rewrite Ht, (IH _ Hp' Hcb'), Hd. cbn [map]. by rewrite <- app_assoc.
    + destruct (round_terminal job s w Hp Hs) as (Ht & _ & _).
      rewrite Ht. by rewrite (round_last_delivers job (ROk s) w cb Hp Hcb Hs).
  - destruct (round_error job e w Hp) as (Ht & _ & _).
    rewrite Ht. by rewrite (round_last_delivers job (RError e) w cb Hp Hcb I).
Qed.

(** X6: a manager that polls a job delivers to its callback one progress
    record for every status observed, in order, each the field-by-field
    copy of the status, and nothing else. *)
Theorem manager_deliveries job cb replies :
  deliveries (log (poll_with_manager job cb replies))
  = map (fun s => EvProgressCallback cb (to_progress job s)) (observed replies).
Proof.
  unfold poll_with_manager.
  destruct (startPolling_polling job cb) as [Hp _].
  by rewrite (drive_deliveries job cb replies _ Hp eq_refl).
Qed.

(** X7: [stopPolling] is idempotent. *)
Theorem stopPolling_idempotent w :
  stopPolling (stopPolling w) = stopPolling w.
Proof.
  unfold stopPolling. destruct w as [[h|] cb ts nh inf lg]; reflexivity.
Qed.

(** A manager at rest stays at rest, and issues no query, until
    [startPolling] is called. *)
Lemma handle_at_rest i w :
  is_startPolling i = false -> at_rest w ->
  at_rest (handle i w) /\ queries (log (handle i w)) = queries (log w).
Proof.
  intros Hi [Ht Hin]. destruct i as [job cb| |job|job r|h]; [done| | | |].
  - cbn [handle]. unfold stopPolling, at_rest.
    destruct w as [[h|] cb ts nh inf lg]; simpl in *; subst; simpl;
      rewrite ?queries_app; (split; [done|]); [|done].
    change (queries [EvClearTimeout h]) with 0%nat. lia.
  - cbn [handle]. unfold cancelJob. rewrite queries_emit. simpl.
    split; [done|lia].
  - cbn [handle]. rewrite Hin. rewrite decide_False; [done|].
    apply not_elem_of_nil.
  - cbn [handle]. by rewrite Ht.
Qed.

Lemma run_at_rest inputs w :
  existsb is_startPolling inputs = false -> at_rest w ->
  at_rest (run inputs w) /\ queries (log (run inputs w)) = queries (log w).
Proof.
  revert w. induction inputs as [|i inputs IH]; intros w Hi Hw; [done|].
  simpl in Hi. apply orb_false_elim in Hi as [Hi Hrest].
  destruct (handle_at_rest i w Hi Hw) as [Hw' Hq].
  unfold run. simpl. fold (run inputs (handle i w)).
  destruct (IH _ Hrest Hw') as [? Hq']. split; [done|]. by rewrite Hq', Hq.
Qed.

(** X8: [stopPolling] between a reply and the timeout that the reply armed
    ends the polling: the timeout is cleared, and whatever happens next,
    short of a new call of [startPolling], no status query is issued. *)
Theorem stopPolling_before_timeout_ends_polling job s w inputs :
  polling job w ->
  still_active (status s) = true ->
  existsb is_startPolling inputs = false ->
  let w' := handle InStopPolling (handle (InReply job (ROk s)) w) in
  at_rest w'
  /\ EvClearTimeout (next_handle w) ∈ log w'
  /\ queries (log (run inputs w')) = queries (log w).
Proof.
  intros Hp Hs Hno. cbn zeta.
  assert (at_rest (handle InStopPolling (handle (InReply job (ROk s)) w))
          /\ EvClearTimeout (next_handle w)
             ∈ log (handle InStopPolling (handle (InReply job (ROk s)) w))
          /\ queries (log (handle InStopPolling
                             (handle (InReply job (ROk s)) w)))
             = queries (log w)) as (Hrest & Hclear & Hq).
  { rewrite (reply_unfold _ _ _ Hp).
    destruct Hp as [Ht Hi]. destruct w as [pi c ts nh inf lg].
    simpl in Ht, Hi. subst ts inf.
    unfold pollJob_resume. rewrite Hs.
    destruct c as [cb|]; simpl; unfold stopPolling, at_rest; simpl;
      rewrite timers_without_single; simpl;
      (split_and!; [done|done|set_solver|]);
      rewrite !queries_app; unfold queries; simpl; lia. }
  split_and!; [done|done|].
  destruct (run_at_rest inputs _ Hno Hrest) as [_ ->]. done.
Qed.

Lemma stopPolling_before_timeout_ends_polling_witness :
  queries (log (run [InTimer 1; InTimer 2; InStopPolling;
                     InReply "job-1" (ROk (Samples.a_status completed 2 None))]
                  (handle InStopPolling
                     (handle (InReply "job-1"
                                (ROk (Samples.a_status processing 1 None)))
                        Samples.polling_world))))
  = queries (log Samples.polling_world).
Proof.
  destruct (stopPolling_before_timeout_ends_polling "job-1"
              (Samples.a_status processing 1 None) Samples.polling_world
              [InTimer 1; InTimer 2; InStopPolling;
               InReply "job-1" (ROk (Samples.a_status completed 2 None))])
    as (_ & _ & H); [split; reflexivity|reflexivity|reflexivity|].
  exact H.
Defined.

(** X9: [stopPolling] while a status query is outstanding does not end
    the polling: when the query comes back [pending] or [processing], a new
    timeout is armed and recorded, and when it elapses the next query goes
    out; only the callback is gone, so nothing is delivered. *)
Theorem stopPolling_during_query_keeps_polling job s w :
  polling job w ->
  still_active (status s) = true ->
  let w1 := handle (InReply job (ROk s)) (handle InStopPolling w) in
  let w2 := handle (InTimer (next_handle w)) w1 in
  timers w1 = [(next_handle w, job)]
  /\ pollInterval w1 = Some (next_handle w)
  /\ queries (log w2) = S (queries (log w))
  /\ deliveries (log w2) = deliveries (log w).
Proof.
  intros Hp Hs. cbn zeta.
  assert (polling job (handle InStopPolling w)) as Hp'.
  { destruct Hp as [Ht Hi]. cbn [handle]. unfold stopPolling, polling.
    destruct w as [[h|] c ts nh inf lg]; simpl in *; subst; done. }
  rewrite (reply_unfold _ _ _ Hp').
  destruct Hp as [Ht Hi]. destruct w as [pi c ts nh inf lg].
  simpl in Ht, Hi. subst ts inf.
  unfold pollJob_resume. rewrite Hs. cbn [handle]. unfold stopPolling.
  destruct pi as [h|]; simpl;
    rewrite timer_job_single, timers_without_single; simpl;
    (split_and!; [done|done| |]);
    rewrite ?queries_app, ?deliveries_app; unfold queries; simpl;
    rewrite ?app_nil_r; try done; lia.
Qed.

Lemma stopPolling_during_query_keeps_polling_witness :
  timers (handle (InReply "job-1" (ROk (Samples.a_status processing 1 None)))
            (handle InStopPolling Samples.polling_world))
  = [(2%positive, "job-1")]
  /\ pollInterval
       (handle (InReply "job-1" (ROk (Samples.a_status processing 1 None)))
          (handle InStopPolling Samples.polling_world))
     = Some 2%positive.
Proof.
  destruct (stopPolling_during_query_keeps_polling "job-1"
              (Samples.a_status processing 1 None) Samples.polling_world)
    as (H1 & H2 & _); [split; reflexivity|reflexivity|].
  exact (conj H1 H2).
Defined.

End ManagerUse.

Section TimerHandles.

Import BulkOperations.

Lemma handles_fresh_emit e w : handles_fresh w -> handles_fresh (emit e w).
Proof. done. Qed.






End TimerHandles.

(** ** The bulk-add dialog, from the outside *)

Section DialogUse.

Import BulkOperations BulkAddModal.

Lemma submit_enabled p st :
  submit_disabled p st = false ->
  isProcessing st = false
  /\ truthy_string (selectedTargetCollectionId st) = true
  /\ (bool_decide (selectionMethod st = selected)
      && bool_decide (length (selectedCompanyIds p) = 0%nat)) = false.
Proof.
  unfold submit_disabled. intros H.
  apply orb_false_elim in H as [H H3].
  apply orb_false_elim in H as [H1 H2].
  apply negb_false_iff in H2. done.
Qed.

(** X11: a target picked from the collections that the dialog offers is
    never the source, so that with the submit button enabled the checks of
    [handleSubmit] pass: the submission goes ahead, or waits for the
    confirmation of the add-all method. *)
Theorem offered_target_passes_the_checks collections p st c confirmed :
  c ∈ availableTargetCollections collections p ->
  selectedTargetCollectionId st = collection_id c ->
  submit_disabled p st = false ->
  collection_id c <> sourceCollectionId p
  /\ validate p st confirmed
     = if bool_decide (selectionMethod st = all) && negb confirmed
       then Decline else Proceed.
Proof.
  intros [Hne _]%list_elem_of_filter Htgt (_ & Ht & Hsel)%submit_enabled.
  split; [done|]. unfold validate. rewrite Ht, Hsel. simpl.
  rewrite decide_False by congruence. done.
Qed.

Lemma offered_target_passes_the_checks_witness :
  "c2" <> "c1"
  /\ validate Samples.some_props (Samples.dialog_state "c2" selected false) true
     = Proceed.
Proof.
  apply (offered_target_passes_the_checks
           [Samples.a_collection "c1" "My List" 40;
            Samples.a_collection "c2" "Liked" 3]
           Samples.some_props (Samples.dialog_state "c2" selected false)
           (Samples.a_collection "c2" "Liked" 3) true).
  - vm_compute. left.
  - reflexivity.
  - reflexivity.
Defined.

(** X12: with the submit button enabled, the only rejection that
    [handleSubmit] can still make is that of a target equal to the
    source. *)
Theorem enabled_button_rejection p st confirmed message :
  submit_disabled p st = false ->
  validate p st confirmed = Reject message ->
  sourceCollectionId p = selectedTargetCollectionId st
  /\ message = "Source and target collections cannot be the same".
Proof.
  intros (_ & Ht & Hsel)%submit_enabled. unfold validate.
  rewrite Ht, Hsel. simpl.
  destruct (decide (sourceCollectionId p = selectedTargetCollectionId st));
    [by intros [= <-]|].
  by destruct (bool_decide (selectionMethod st = all) && negb confirmed).
Qed.

Lemma enabled_button_rejection_witness :
  "c1" = "c1"
  /\ "Source and target collections cannot be the same"
     = "Source and target collections cannot be the same".
Proof.
  apply (enabled_button_rejection Samples.some_props
           (Samples.dialog_state "c1" selected false) true
           "Source and target collections cannot be the same");
    reflexivity.
Defined.

(** X13: when the confirmation of the add-all method is declined,
    [handleSubmit] leaves the state as it is and sends nothing. *)
Theorem declined_confirmation_changes_nothing p st created replies :
  selectedTargetCollectionId st <> EmptyString ->
  sourceCollectionId p <> selectedTargetCollectionId st ->
  selectionMethod st = all ->
  handleSubmit p st false created replies
  = (st, [Confirm (totalCompaniesInCollection p)]).
Proof.
  intros Ht%truthy_string_spec Hne Hall.
  unfold handleSubmit, validate. rewrite Ht, Hall. simpl.
  rewrite decide_False by done.
  rewrite bool_decide_eq_false_2 by done. done.
Qed.

Lemma declined_confirmation_changes_nothing_witness :
  handleSubmit Samples.some_props (Samples.dialog_state "c2" all false) false
    (Some (ROk Samples.a_job)) [ROk (Samples.a_status completed 2 None)]
  = (Samples.dialog_state "c2" all false, [Confirm 40]).
Proof.
  apply (declined_confirmation_changes_nothing Samples.some_props
           (Samples.dialog_state "c2" all false));
    [discriminate | discriminate | reflexivity].
Defined.

Lemma apply_progress_fields tr st :
  selectedTargetCollectionId (apply_progress tr st)
  = selectedTargetCollectionId st
  /\ selectionMethod (apply_progress tr st) = selectionMethod st
  /\ isLoading (apply_progress tr st) = isLoading st
  /\ error (apply_progress tr st) = error st
  /\ isProcessing (apply_progress tr st) = isProcessing st.
Proof.
  unfold apply_progress. revert st.
  induction tr as [|e tr IH]; intros st; [done|].
  simpl. destruct e; try apply IH.
  destruct (IH (setProgress (progress_pct s) st)) as (?&?&?&?&?). done.
Qed.

Lemma proceed_asked p st confirmed :
  validate p st confirmed = Proceed ->
  (if truthy_string (selectedTargetCollectionId st)
      && negb (bool_decide (sourceCollectionId p = selectedTargetCollectionId st))
      && bool_decide (selectionMethod st = all)
   then [Confirm (totalCompaniesInCollection p)] else [])
  = if bool_decide (selectionMethod st = all)
    then [Confirm (totalCompaniesInCollection p)] else [].
Proof.
  unfold validate.
  destruct (truthy_string (selectedTargetCollectionId st)); [|done]. simpl.
  destruct (decide (sourceCollectionId p = selectedTargetCollectionId st));
    [done|].
  intros _. by rewrite bool_decide_eq_false_2 by done.
Qed.

(** X14: once the checks have passed, [handleSubmit] shows the operation
    as processing, with no error, for as long as the helper has not
    settled; when the helper has settled, whether it returned or threw, the
    operation is no longer processing and the progress is back to 0. *)
Theorem handleSubmit_processing_flag p st confirmed created replies :
  validate p st confirmed = Proceed ->
  match snd (createBulkAddJobWithPolling (build_request p st) true
               created replies) with
  | Awaiting =>
      isProcessing (fst (handleSubmit p st confirmed created replies)) = true
      /\ error (fst (handleSubmit p st confirmed created replies)) = None
  | _ =>
      isProcessing (fst (handleSubmit p st confirmed created replies)) = false
      /\ progress (fst (handleSubmit p st confirmed created replies)) = 0
  end.
Proof.
  intros Hv. unfold handleSubmit. rewrite Hv.
  destruct (createBulkAddJobWithPolling (build_request p st) true created
              replies) as [tr out].
  cbn [snd].
  destruct (apply_progress_fields tr
              (setProgress 0 (setError None (setIsProcessing true st))))
    as (_ & _ & _ & He & Hp).
  destruct out as [v|message|]; cbn [fst]; [|done|done].
  unfold handleClose. by destruct (isProcessing st).
Qed.

Lemma handleSubmit_processing_flag_witness :
  isProcessing
    (fst (handleSubmit Samples.some_props
            (Samples.dialog_state "c2" selected false) true
            (Some (ROk Samples.a_job))
            [ROk (Samples.a_status processing 1 None)])) = true
  /\ error
       (fst (handleSubmit Samples.some_props
               (Samples.dialog_state "c2" selected false) true
               (Some (ROk Samples.a_job))
               [ROk (Samples.a_status processing 1 None)])) = None.
Proof.
  apply (handleSubmit_processing_flag Samples.some_props
           (Samples.dialog_state "c2" selected false) true
           (Some (ROk Samples.a_job))
           [ROk (Samples.a_status processing 1 None)]).
  reflexivity.
Defined.

(** X15: when the helper throws, [handleSubmit] shows the message of the
    error, keeps the chosen target and method, and calls neither
    [onComplete] nor [onClose]: the dialog stays open on the failure. *)
Theorem handleSubmit_failure p st confirmed created replies message :
  validate p st confirmed = Proceed ->
  snd (createBulkAddJobWithPolling (build_request p st) true created replies)
  = Threw message ->
  error (fst (handleSubmit p st confirmed created replies)) = Some message
  /\ selectedTargetCollectionId
       (fst (handleSubmit p st confirmed created replies))
     = selectedTargetCollectionId st
  /\ selectionMethod (fst (handleSubmit p st confirmed created replies))
     = selectionMethod st
  /\ (OnComplete ∉ snd (handleSubmit p st confirmed created replies))
  /\ (OnClose ∉ snd (handleSubmit p st confirmed created replies)).
Proof.
  intros Hv. unfold handleSubmit. rewrite Hv, (proceed_asked _ _ _ Hv).
  destruct (createBulkAddJobWithPolling (build_request p st) true created
              replies) as [tr out].
  cbn [snd]. intros ->. cbn [fst snd].
  destruct (apply_progress_fields tr
              (setProgress 0 (setError None (setIsProcessing true st))))
    as (Ht & Hm & _ & _ & _).
  split_and!; [done|done|done| |].
  - intros [Hin|Hin]%elem_of_app.
    + destruct (bool_decide (selectionMethod st = all));
        [by apply list_elem_of_singleton in Hin|by apply not_elem_of_nil in Hin].
    + by apply list_elem_of_fmap in Hin as (e & [=] & _).
  - intros [Hin|Hin]%elem_of_app.
    + destruct (bool_decide (selectionMethod st = all));
        [by apply list_elem_of_singleton in Hin|by apply not_elem_of_nil in Hin].
    + by apply list_elem_of_fmap in Hin as (e & [=] & _).
Qed.

Lemma handleSubmit_failure_witness :
  error (fst (handleSubmit Samples.some_props
                (Samples.dialog_state "c2" selected false) true
                (Some (ROk Samples.a_job))
                [ROk (Samples.a_status failed 1 (Some "source not found"))]))
  = Some "source not found".
Proof.
  apply (handleSubmit_failure Samples.some_props
           (Samples.dialog_state "c2" selected false) true
           (Some (ROk Samples.a_job))
           [ROk (Samples.a_status failed 1 (Some "source not found"))]
           "source not found");
    reflexivity.
Defined.

(** X16: when the helper returns, [handleSubmit], called from a render in
    which nothing was processing, calls [onComplete] and then closes the
    dialog: the target and the method are reset, no error is shown, and
    [onComplete] and [onClose] are the last two effects, in this order. *)
Theorem handleSubmit_success p st confirmed created replies v :
  validate p st confirmed = Proceed ->
  isProcessing st = false ->
  snd (createBulkAddJobWithPolling (build_request p st) true created replies)
  = Returned v ->
  fst (handleSubmit p st confirmed created replies)
  = {| selectedTargetCollectionId := EmptyString;
       selectionMethod := selected;
       isLoading := isLoading st;
       error := None; progress := 0; isProcessing := false |}
  /\ snd (handleSubmit p st confirmed created replies)
     = (if bool_decide (selectionMethod st = all)
        then [Confirm (totalCompaniesInCollection p)] else [])
       ++ map Api (fst (createBulkAddJobWithPolling (build_request p st) true
                          created replies))
       ++ [OnComplete; OnClose].
Proof.
  intros Hv Hidle. unfold handleSubmit. rewrite Hv, (proceed_asked _ _ _ Hv).
  destruct (createBulkAddJobWithPolling (build_request p st) true created
              replies) as [tr out].
  cbn [snd]. intros ->. cbn [fst].
  unfold handleClose. rewrite Hidle. cbn [fst snd].
  destruct (apply_progress_fields tr
              (setProgress 0 (setError None (setIsProcessing true st))))
    as (_ & _ & Hl & _ & _).
  split.
  - unfold setProgress, setIsProcessing, setError, setSelectionMethod,
      setSelectedTargetCollectionId. simpl. f_equal. exact Hl.
  - by rewrite <- app_assoc.
Qed.

Lemma handleSubmit_success_witness :
  fst (handleSubmit Samples.some_props
         (Samples.dialog_state "c2" selected false) true
         (Some (ROk Samples.a_job))
         [ROk (Samples.a_status completed 2 None)])
  = {| selectedTargetCollectionId := EmptyString;
       selectionMethod := selected;
       isLoading := false;
       error := None; progress := 0; isProcessing := false |}.
Proof.
  apply (handleSubmit_success Samples.some_props
           (Samples.dialog_state "c2" selected false) true
           (Some (ROk Samples.a_job))
           [ROk (Samples.a_status completed 2 None)]
           (Samples.a_status completed 2 None));
    reflexivity.
Defined.

End DialogUse.

(** ** The selection of the company table, from the outside *)

Section SelectionLists.

Import CompanyTable.

Lemma includes_true (arr : list JsNumber) (x : JsNumber) :
  includes arr x = true <-> x ∈ arr.
Proof. unfold includes. apply bool_decide_eq_true. Qed.

Lemma filter_none {A} (P : A -> Prop) `{!forall x, Decision (P x)} (l : list A) :
  Forall (fun x => ~ P x) l -> filter P l = [].
Proof.
  induction 1 as [|x l Hx _ IH]; [done|].
  by rewrite filter_cons_False.
Qed.

Lemma filter_every {A} (P : A -> Prop) `{!forall x, Decision (P x)} (l : list A) :
  Forall P l -> filter P l = l.
Proof.
  induction 1 as [|x l Hx _ IH]; [done|].
  rewrite filter_cons_True by done. by rewrite IH.
Qed.

Lemma otherPagesSelection_spec st x :
  x ∈ otherPagesSelection st
  <-> x ∈ selectedCompanyIds st /\ x ∉ currentPageIds st.
Proof.
  unfold otherPagesSelection. rewrite list_elem_of_filter, includes_false.
  tauto.
Qed.

Lemma otherPagesSelection_off_page st :
  Forall (fun x => x ∉ currentPageIds st) (otherPagesSelection st).
Proof. apply Forall_forall. by intros x [_ ?]%otherPagesSelection_spec. Qed.

(** A number is one of the rows, for [===], when it is not [NaN] and is
    the id of a row. *)
Lemma on_page_strict st x :
  existsb (fun c => strict_eq (id c) x) (response st) = true
  <-> x <> NaN /\ x ∈ currentPageIds st.
Proof.
  unfold currentPageIds. rewrite existsb_exists. split.
  - intros (c & Hin & Heq). destruct (id c) as [a|] eqn:Hc; [|done].
    destruct x as [b|]; [|done]. simpl in Heq.
    apply bool_decide_eq_true in Heq as <-. split; [done|].
    apply list_elem_of_In, in_map_iff. eauto.
  - intros [Hx Hin]. apply list_elem_of_In, in_map_iff in Hin as (c & Hc & Hin).
    exists c. split; [done|]. rewrite Hc. destruct x; [|done].
    simpl. by apply bool_decide_eq_true.
Qed.

End SelectionLists.

Section TableUse.

Import CompanyTable.

Variable StringToNumber : string -> JsNumber.

(** X17: after a selection change, the selection is made of the ids that
    were selected on the other pages and of the ids that the grid
    reports; the version that filters the report keeps of it the ids of
    the page on display. *)
Theorem selection_after_change newSelection st x :
  (x ∈ selectedCompanyIds (handleSelectionChange StringToNumber newSelection st)
   <-> (x ∈ selectedCompanyIds st /\ x ∉ currentPageIds st)
       \/ x ∈ map (Number StringToNumber) newSelection)
  /\ (x ∈ selectedCompanyIds
            (handleSelectionChange_simple StringToNumber newSelection st)
      <-> (x ∈ selectedCompanyIds st /\ x ∉ currentPageIds st)
          \/ (x ∈ currentPageIds st
              /\ x ∈ map (Number StringToNumber) newSelection)).
Proof.
  unfold handleSelectionChange, handleSelectionChange_simple. simpl.
  rewrite !elem_of_app, list_elem_of_filter, includes_true,
    otherPagesSelection_spec.
  tauto.
Qed.

(** X18: when the grid reports rows of the page on display, the selection
    that is handed back to it for this page is exactly what it reported. *)
Theorem reported_selection_is_handed_back newSelection st :
  Forall (fun y => Number StringToNumber y <> NaN
                   /\ Number StringToNumber y ∈ currentPageIds st)
    newSelection ->
  currentPageSelections (handleSelectionChange StringToNumber newSelection st)
  = map (Number StringToNumber) newSelection
  /\ currentPageSelections
       (handleSelectionChange_simple StringToNumber newSelection st)
     = map (Number StringToNumber) newSelection.
Proof.
  intros Hnew.
  assert (Forall (fun x => x <> NaN /\ x ∈ currentPageIds st)
            (map (Number StringToNumber) newSelection)) as Hnums.
  { apply Forall_forall. intros x Hin.
    apply list_elem_of_In, in_map_iff in Hin as (y & <- & Hin).
    apply list_elem_of_In in Hin.
    by apply (proj1 (Forall_forall _ _) Hnew). }
  assert (forall l,
             filter (fun x => existsb (fun c => strict_eq (id c) x)
                                (response st) = true)
               (otherPagesSelection st ++ l)
             = filter (fun x => existsb (fun c => strict_eq (id c) x)
                                  (response st) = true) l) as Hother.
  { intros l. rewrite filter_app, filter_none; [done|].
    eapply Forall_impl; [apply otherPagesSelection_off_page|].
    intros x Hoff [_ Hon]%on_page_strict. done. }
  unfold currentPageSelections, handleSelectionChange,
    handleSelectionChange_simple. simpl. rewrite !Hother.
  rewrite (filter_every (fun x => includes (currentPageIds st) x = true)).
  2: { eapply Forall_impl; [exact Hnums|].
       intros x [_ Hin]. by apply includes_true. }
  rewrite filter_every; [done|].
  eapply Forall_impl; [exact Hnums|]. intros x Hx. by apply on_page_strict.
Qed.

(** X19: a selection without duplicates stays without duplicates when the
    grid reports distinct ids: always in the version that filters the
    report, and in the version of CompanyTable.tsx when the ids reported
    are ids of the page on display. *)
Theorem selection_stays_duplicate_free newSelection st :
  NoDup (selectedCompanyIds st) ->
  NoDup (map (Number StringToNumber) newSelection) ->
  NoDup (selectedCompanyIds
           (handleSelectionChange_simple StringToNumber newSelection st))
  /\ (Forall (fun y => Number StringToNumber y ∈ currentPageIds st)
        newSelection ->
      NoDup (selectedCompanyIds
               (handleSelectionChange StringToNumber newSelection st))).
Proof.
  intros Hsel Hnew.
  assert (NoDup (otherPagesSelection st)) as Hother
    by (by apply NoDup_filter).
  split.
  - unfold handleSelectionChange_simple. simpl. apply NoDup_app.
    split_and!; [done| |by apply NoDup_filter].
    intros x [_ Hoff]%otherPagesSelection_spec
      [Hon _]%list_elem_of_filter.
    by apply includes_true in Hon.
  - intros Hpage. unfold handleSelectionChange. simpl. apply NoDup_app.
    split_and!; [done| |done].
    intros x [_ Hoff]%otherPagesSelection_spec Hin.
    apply list_elem_of_In, in_map_iff in Hin as (y & <- & Hin).
    apply list_elem_of_In in Hin.
    by apply Hoff, (proj1 (Forall_forall _ _) Hpage).
Qed.

End TableUse.

Lemma reported_selection_is_handed_back_witness :
  CompanyTable.currentPageSelections
    (CompanyTable.handleSelectionChange CompanyTable.decimal_StringToNumber
       [CompanyTable.RowString "27"; CompanyTable.RowNumber (JNum 26)]
       Samples.table_state)
  = [JNum 27; JNum 26]
  /\ CompanyTable.currentPageSelections
       (CompanyTable.handleSelectionChange_simple
          CompanyTable.decimal_StringToNumber
          [CompanyTable.RowString "27"; CompanyTable.RowNumber (JNum 26)]
          Samples.table_state)
     = [JNum 27; JNum 26].
Proof.
  apply (reported_selection_is_handed_back CompanyTable.decimal_StringToNumber
           [CompanyTable.RowString "27"; CompanyTable.RowNumber (JNum 26)]
           Samples.table_state).
  apply (bool_decide_unpack _). vm_compute. exact I.
Defined.

Lemma selection_stays_duplicate_free_witness :
  NoDup (CompanyTable.selectedCompanyIds
           (CompanyTable.handleSelectionChange_simple
              CompanyTable.decimal_StringToNumber
              [CompanyTable.RowString "27"] Samples.table_state)).
Proof.
  apply (selection_stays_duplicate_free CompanyTable.decimal_StringToNumber
           [CompanyTable.RowString "27"] Samples.table_state);
    apply (bool_decide_unpack _); vm_compute; exact I.
Defined.

Section OwnSelectionColumn.

Import CompanyTable.






End OwnSelectionColumn.
